(** * PluginApi of @planjs/react-cli-service

    A shallow embedding of [src/packages/react-cli-service/src/services/PluginApi.ts]
    and the properties of its version guard, its capability registry and its
    cache fingerprint.

    The class keeps no state of its own beside its [id]: every method works
    on the one [Service] object that all PluginApi instances of a build
    session share.  The monad [M] below threads the host that holds it. *)

From Stdlib Require Import ZArith QArith String Ascii List Lia.
From stdpp Require Import base option gmap strings list pretty.

Local Open Scope Z_scope.
Local Set Warnings "-register-all".

(** ** JavaScript values *)

(** A JavaScript number: a finite value (the doubles are among the
    rationals), NaN, or an infinity with its sign ([true] is negative). *)
Inductive number : Type :=
| Finite (q : Q)
| NaN
| Infinity (negative : bool).

(** The values the methods receive and build.  A function is known by its
    source text ([Function.prototype.toString]); an object is the list of its
    own properties in insertion order. *)
Inductive value : Type :=
| VUndefined
| VNull
| VBool (b : bool)
| VNum (n : number)
| VStr (s : string)
| VFun (source : string)
| VArr (items : list value)
| VObj (props : list (string * value)).

(** [Number.isInteger]: finite, with no fractional part. *)
Definition Number_isInteger (n : number) : bool :=
  match n with
  | Finite q => (Qnum q mod Z.pos (Qden q) =? 0)%Z
  | NaN | Infinity _ => false
  end.

(** The integer an integer-valued number stands for. *)
Definition Number_toZ (n : number) : Z :=
  match n with
  | Finite q => (Qnum q / Z.pos (Qden q))%Z
  | NaN | Infinity _ => 0%Z
  end.

(** *** Number::toString on the integers

    ECMAScript writes a number x with the fewest digits that still read
    back as x: integers s, k and n with 10^(k-1) <= s < 10^k, such that
    s * 10^(n-k) rounds to the double x, and k as small as possible; of two
    such s the one nearer to x.  Up to n = 21 the text is the digits of s
    followed by n - k zeros; beyond, it is in exponent notation. *)

(** The double nearest to an integer, ties going to the even significand
    of 53 bits.  (From 2^1024 on the result is no finite double and equals
    none.) *)
Definition round_to_double (y : Z) : Z :=
  let bits := Z.log2 y + 1 in
  if bits <=? 53 then y
  else
    let e := bits - 53 in
    let q := y / 2 ^ e in
    let r := y mod 2 ^ e in
    let half := 2 ^ (e - 1) in
    let q' := if (half <? r) || ((r =? half) && Z.odd q) then q + 1 else q in
    q' * 2 ^ e.

(** The number of decimal digits of a positive integer. *)
Definition decimal_length (x : Z) : Z := Z.of_nat (String.length (pretty x)).

(** The digits s of length k for an integer x of d digits, with the power
    of ten m = d - k they are scaled by: x cut to its first k digits, or
    that plus one, whichever rounds to x (the nearer when both do, the even
    one on a tie). *)
Definition digits_at (x d k : Z) : option (Z * Z) :=
  let m := d - k in
  let lo := x / 10 ^ m in
  let hi := lo + 1 in
  let ok_lo := round_to_double (lo * 10 ^ m) =? x in
  let ok_hi := (hi <? 10 ^ k) && (round_to_double (hi * 10 ^ m) =? x) in
  if ok_lo && ok_hi then
    let below := x - lo * 10 ^ m in
    let above := hi * 10 ^ m - x in
    if below <? above then Some (lo, m)
    else if above <? below then Some (hi, m)
    else if Z.even lo then Some (lo, m) else Some (hi, m)
  else if ok_lo then Some (lo, m)
  else if ok_hi then Some (hi, m)
  else None.

(** The first length from k on at which there are such digits. *)
Fixpoint shortest_from (x d k : Z) (fuel : nat) : option (Z * Z) :=
  match fuel with
  | O => None
  | S fuel' =>
      match digits_at x d k with
      | Some r => Some r
      | None => shortest_from x d (k + 1) fuel'
      end
  end.

(** The shortest digits s and the power of ten m with s * 10^m rounding to
    x.  The one candidate outside the decade of x is the next power of ten.
    An integer that is no double has no such digits and keeps its own; no
    JavaScript number has such a value. *)
Definition shortest_digits (x : Z) : Z * Z :=
  let d := decimal_length x in
  if round_to_double (10 ^ d) =? x then (1, d)
  else match shortest_from x d 1 (Z.to_nat d) with
       | Some r => r
       | None => (x, 0)
       end.

(** The text of a positive integer: the digits and their zeros below
    10^21, and from there the first digit, a point and the other digits if
    there are any, [e+] and the exponent n - 1. *)
Definition positive_toString (x : Z) : string :=
  let '(s, m) := shortest_digits x in
  if s * 10 ^ m <? 10 ^ 21 then pretty (s * 10 ^ m)
  else
    let n := Z.of_nat (String.length (pretty s)) + m in
    match pretty s with
    | String c EmptyString => String c ("e+" +:+ pretty (n - 1))
    | String c rest => String c ("." +:+ rest +:+ "e+" +:+ pretty (n - 1))
    | EmptyString => EmptyString
    end.

Definition integer_toString (z : Z) : string :=
  match z with
  | Z0 => "0"
  | Zpos _ => positive_toString z
  | Zneg p => "-" +:+ positive_toString (Zpos p)
  end.

(** The text a template literal inserts for a number (Number::toString).
    The code only formats numbers that passed [Number.isInteger]. *)
Definition Number_toString (n : number) : string :=
  match n with
  | Finite _ => integer_toString (Number_toZ n)
  | NaN => "NaN"
  | Infinity false => "Infinity"
  | Infinity true => "-Infinity"
  end.

(** ToBoolean. *)
Definition truthy (v : value) : bool :=
  match v with
  | VUndefined | VNull => false
  | VBool b => b
  | VNum (Finite q) => negb (Qnum q =? 0)%Z
  | VNum NaN => false
  | VNum (Infinity _) => true
  | VStr s => negb (String.eqb s EmptyString)
  | VFun _ | VArr _ | VObj _ => true
  end.

(** [a || b] on values. *)
Definition js_or (a b : value) : value := if truthy a then a else b.

(** Neither [null] nor [undefined]. *)
Definition non_null (v : value) : bool :=
  match v with
  | VUndefined | VNull => false
  | _ => true
  end.

(** ** Line endings *)

Definition CR : ascii := "013"%char.
Definition LF : ascii := "010"%char.

(** [s.replace(/\r\n?/g, '\n')]: scanning from the left, a carriage return
    together with the line feed that follows it, or a carriage return alone,
    becomes one line feed; every other character is copied. *)
Fixpoint replace_crlf (s : string) : string :=
  match s with
  | EmptyString => EmptyString
  | String c rest =>
      if Ascii.eqb c CR then
        match rest with
        | String c' rest' =>
            if Ascii.eqb c' LF then String LF (replace_crlf rest')
            else String LF (replace_crlf rest)
        | EmptyString => String LF EmptyString
        end
      else String c (replace_crlf rest)
  end.

(** A text in the line-feed-only convention holds no carriage return. *)
Fixpoint lf_only (s : string) : bool :=
  match s with
  | EmptyString => true
  | String c rest => negb (Ascii.eqb c CR) && lf_only rest
  end.

(** The lines of a text, each of CR LF, CR and LF ending one line: the
    first line and the lines after it. *)
Fixpoint split_lines (s : string) : string * list string :=
  match s with
  | EmptyString => (EmptyString, [])
  | String c rest =>
      if Ascii.eqb c CR then
        match rest with
        | String c' rest' =>
            if Ascii.eqb c' LF
            then (EmptyString, fst (split_lines rest') :: snd (split_lines rest'))
            else (EmptyString, fst (split_lines rest) :: snd (split_lines rest))
        | EmptyString => (EmptyString, [EmptyString])
        end
      else if Ascii.eqb c LF
      then (EmptyString, fst (split_lines rest) :: snd (split_lines rest))
      else (String c (fst (split_lines rest)), snd (split_lines rest))
  end.

(** Lines put together again with a line feed between them. *)
Fixpoint join_lf_rest (ls : list string) : string :=
  match ls with
  | [] => EmptyString
  | l :: rest => String LF (l +:+ join_lf_rest rest)
  end.
Definition join_lf (lines : string * list string) : string :=
  fst lines +:+ join_lf_rest (snd lines).

(** [sub] occurs in [s]. *)
Definition occurs_in (sub s : string) : Prop :=
  exists pre post : string, s = pre +:+ sub +:+ post.

(** ** The host *)

(** An entry of [service.commands]. *)
Record Command : Type := mkCommand {
  fn : value;
  options : value
}.

(** [service.userOptions], the two hooks the fingerprint reads. *)
Record UserOptions : Type := mkUserOptions {
  uo_chainWebpack : value;
  uo_configureWebpack : value
}.

(** The fields of [Service] that PluginApi touches. *)
Record Service : Type := mkService {
  pkgJson_version : string;
  context : string;
  plugins : list string;
  commands : gmap string Command;
  webpackChainFns : list value;
  webpackRawConfigFns : list value;
  devServerConfigFns : list value;
  userOptions : UserOptions
}.

(** The running host: the shared service object and, as instrumentation,
    the user-supplied functions that have been called so far, oldest first. *)
Record Host : Type := mkHost {
  service : Service;
  invoked : list value
}.

(** What a method can throw. *)
Inductive exn : Type :=
| Error (message : string)
| TypeError (message : string).

Inductive outcome (A : Type) : Type :=
| Returned (a : A)
| Thrown (e : exn).
Arguments Returned {A} a.
Arguments Thrown {A} e.

(** A method call: it reads and updates the host and returns or throws.
    Updates made before a throw stay. *)
Definition M (A : Type) : Type := Host -> outcome A * Host.

#[global] Instance M_ret : MRet M := fun A a h => (Returned a, h).
#[global] Instance M_bind : MBind M := fun A B f m h =>
  match m h with
  | (Returned a, h') => f a h'
  | (Thrown e, h') => (Thrown e, h')
  end.

Definition throw {A : Type} (e : exn) : M A := fun h => (Thrown e, h).
Definition get_service : M Service := fun h => (Returned (service h), h).
Definition put_service (s : Service) : M unit :=
  fun h => (Returned tt, mkHost s (invoked h)).

(** [try { body } catch (e) { handler }]. *)
Definition try_catch {A : Type} (body : M A) (handler : exn -> M A) : M A :=
  fun h =>
    match body h with
    | (Returned a, h') => (Returned a, h')
    | (Thrown e, h') => handler e h'
    end.

(** The process around the host: package metadata, environment variables and
    the file system.  [loadJSON] (from the shared utilities) either yields the
    parsed JSON or throws; [fs_readFileSync] yields the decoded text or
    throws ([None]). *)
Record Env : Type := mkEnv {
  import_meta_url : string;
  loadJSON : string -> string -> exn + value;
  process_env : string -> option string;
  fs_existsSync : string -> bool;
  fs_readFileSync : string -> option string
}.

(** The [configFiles] argument of [getCacheIdentifier]: left out (the
    default [[]] applies), an array of names, or one bare name. *)
Inductive configFiles_arg : Type :=
| CF_default
| CF_array (files : list string)
| CF_string (file : string).

Record CacheResult : Type := mkCacheResult {
  cacheDirectory : string;
  cacheIdentifier : string
}.

Definition lockfiles : list string :=
  ["package-lock.json"; "yarn.lock"; "pnpm-lock.yaml"].

(** Field updates of the service object. *)
Definition set_commands (s : Service) (c : gmap string Command) : Service :=
  mkService (pkgJson_version s) (context s) (plugins s) c
    (webpackChainFns s) (webpackRawConfigFns s) (devServerConfigFns s)
    (userOptions s).
Definition set_webpackChainFns (s : Service) (l : list value) : Service :=
  mkService (pkgJson_version s) (context s) (plugins s) (commands s)
    l (webpackRawConfigFns s) (devServerConfigFns s) (userOptions s).
Definition set_webpackRawConfigFns (s : Service) (l : list value) : Service :=
  mkService (pkgJson_version s) (context s) (plugins s) (commands s)
    (webpackChainFns s) l (devServerConfigFns s) (userOptions s).
Definition set_devServerConfigFns (s : Service) (l : list value) : Service :=
  mkService (pkgJson_version s) (context s) (plugins s) (commands s)
    (webpackChainFns s) (webpackRawConfigFns s) l (userOptions s).

(** [obj[key] = v]: an own property keeps its place, a new one goes last. *)
Fixpoint obj_set (key : string) (v : value) (props : list (string * value))
  : list (string * value) :=
  match props with
  | [] => [(key, v)]
  | (k, old) :: rest =>
      if String.eqb k key then (k, v) :: rest
      else (k, old) :: obj_set key v rest
  end.

(** [obj[key]] on an object's own properties. *)
Fixpoint obj_get (key : string) (props : list (string * value)) : value :=
  match props with
  | [] => VUndefined
  | (k, v) :: rest => if String.eqb k key then v else obj_get key rest
  end.

(** [json.version]: reading a property of [null] or [undefined] throws a
    TypeError; no primitive, array or function has a [version] property. *)
Definition get_version (json : value) : M value :=
  match json with
  | VUndefined | VNull =>
      throw (TypeError "Cannot read properties of null (reading 'version')")
  | VObj props => mret (obj_get "version" props)
  | _ => mret VUndefined
  end.

Definition dquote : string := String "034"%char EmptyString.

Definition invalid_range_message : string := "Expected string or integer value.".

Definition incompatible_version_message (range version : string) : string :=
  "Require @planjs/react-cli-service " +:+ dquote +:+ range +:+ dquote +:+
  ", but was loaded with " +:+ dquote +:+ version +:+ dquote +:+ ".".

(** The range a call of [assertVersion] asks for: the string itself, or for
    an integer the caret range of the major version as the template literal
    of line 31 writes it. *)
Definition required_range (range : value) : option string :=
  match range with
  | VStr r => Some r
  | VNum n =>
      if Number_isInteger n
      then Some ("^" +:+ Number_toString n +:+ ".0.0-0")
      else None
  | _ => None
  end.

(** A malformed range argument: a number that is no integer, or a value that
    is neither a number nor a string. *)
Definition malformed_range (range : value) : bool :=
  match range with
  | VNum n => negb (Number_isInteger n)
  | VStr _ => false
  | _ => true
  end.

(** A call's result and the host it leaves. *)
Definition result_of {A : Type} (m : M A) (h : Host) : outcome A := fst (m h).
Definition host_after {A : Type} (m : M A) (h : Host) : Host := snd (m h).

(** Every registered command has an options field that is neither [null]
    nor [undefined]. *)
Definition options_never_null (s : Service) : Prop :=
  map_Forall (fun (_ : string) (c : Command) => non_null (options c) = true)
    (commands s).

(** Everything of the service but the three lists of registered functions. *)
Definition same_registry_frame (s s' : Service) : Prop :=
  pkgJson_version s' = pkgJson_version s /\
  context s' = context s /\
  plugins s' = plugins s /\
  commands s' = commands s /\
  userOptions s' = userOptions s.

(** What [readConfig] sees at an absolute path: the text of a file that
    exists and can be read. *)
Definition file_text (env : Env) (absolutePath : string) : option string :=
  if fs_existsSync env absolutePath then fs_readFileSync env absolutePath
  else None.

(** What a file contributes to the variables bag: its text with line feeds
    only, or [undefined], the absent marker. *)
Definition file_contribution (content : option string) : value :=
  match content with
  | Some text => VStr (replace_crlf text)
  | None => VUndefined
  end.

(** Two values of a user option that differ at most in the line endings of
    a function's source. *)
Inductive same_option_value : value -> value -> Prop :=
| same_option_value_refl (c : value) : same_option_value c c
| same_option_value_fun (s1 s2 : string) :
    replace_crlf s1 = replace_crlf s2 ->
    same_option_value (VFun s1) (VFun s2).



(** ** Stand-ins for the examples *)

(** A comparator for the examples: a table of the version and range pairs
    that occur in them. *)
Definition sample_satisfies (version range : string) (includePrerelease : bool)
  : bool :=
  String.eqb range "*" ||
  (String.eqb version "1.2.3" && String.eqb range "^1.0.0-0" &&
   includePrerelease).

(** A digest for the examples: the value written out. *)
Fixpoint sample_hash (v : value) : string :=
  match v with
  | VUndefined => "undefined"
  | VNull => "null"
  | VBool b => if b then "true" else "false"
  | VNum n => Number_toString n
  | VStr s => dquote +:+ s +:+ dquote
  | VFun source => source
  | VArr items =>
      "[" +:+ (fix go (l : list value) : string :=
                 match l with
                 | [] => "]"
                 | x :: rest => sample_hash x +:+ "," +:+ go rest
                 end) items
  | VObj props =>
      "{" +:+ (fix go (l : list (string * value)) : string :=
                 match l with
                 | [] => "}"
                 | (k, x) :: rest => k +:+ ":" +:+ sample_hash x +:+ "," +:+ go rest
                 end) props
  end.

(** Path resolution for the examples: relative names below an absolute
    root. *)
Definition sample_resolve (root path : string) : string := root +:+ "/" +:+ path.

Definition text_crlf : string := "a" +:+ String CR (String LF "b").
Definition text_lf : string := "a" +:+ String LF "b".

(** A process in which the host's own package.json loads, cache-loader is
    not installed, yarn.lock holds the given text, babel.config.js exists
    but cannot be read, and no other file exists. *)
Definition sample_env (yarn_lock : string) : Env :=
  {| import_meta_url := "file:///cli/dist/services/PluginApi.js";
     loadJSON := fun path _ =>
       if String.eqb path "../package.json"
       then inr (VObj [ ("name", VStr "@planjs/react-cli-service");
                        ("version", VStr "1.2.3") ])
       else inl (Error "Cannot find module");
     process_env := fun name =>
       if String.eqb name "NODE_ENV" then Some "production" else None;
     fs_existsSync := fun absolutePath =>
       String.eqb absolutePath "/proj/yarn.lock" ||
       String.eqb absolutePath "/proj/babel.config.js";
     fs_readFileSync := fun absolutePath =>
       if String.eqb absolutePath "/proj/yarn.lock" then Some yarn_lock
       else None |}.

(** A host of version 1.2.3 rooted at /proj with nothing registered and the
    given chainWebpack user option. *)
Definition sample_host (chain : value) : Host :=
  mkHost (mkService "1.2.3" "/proj" [] ∅ [] [] []
            (mkUserOptions chain VUndefined)) [].

(** A process like [sample_env text_lf] in all that the fingerprint reads
    and different elsewhere: another package is installed, HOME is set, and
    a README.md exists. *)
Definition busy_env : Env :=
  {| import_meta_url := "file:///cli/dist/services/PluginApi.js";
     loadJSON := fun path _ =>
       if String.eqb path "../package.json"
       then inr (VObj [ ("name", VStr "@planjs/react-cli-service");
                        ("version", VStr "1.2.3") ])
       else if String.eqb path "webpack/package.json"
       then inr (VObj [ ("version", VStr "5.0.0") ])
       else inl (Error "Cannot find module");
     process_env := fun name =>
       if String.eqb name "NODE_ENV" then Some "production"
       else if String.eqb name "HOME" then Some "/root"
       else None;
     fs_existsSync := fun absolutePath =>
       String.eqb absolutePath "/proj/yarn.lock" ||
       String.eqb absolutePath "/proj/babel.config.js" ||
       String.eqb absolutePath "/proj/README.md";
     fs_readFileSync := fun absolutePath =>
       if String.eqb absolutePath "/proj/yarn.lock" then Some text_lf
       else if String.eqb absolutePath "/proj/README.md" then Some "hello"
       else None |}.

(** A host of another version on the same project, with a plugin, a chain
    function and a command, and a call already made. *)
Definition busy_host : Host :=
  mkHost (mkService "9.9.9" "/proj" ["@planjs/react-cli-plugin-babel"]
            {[ "build" := mkCommand (VFun "build") (VObj []) ]}
            [VFun "g"] [] []
            (mkUserOptions (VFun text_lf) VUndefined))
         [VFun "g"].

(** A process in test mode where cache-loader is installed with a
    package.json that has no version field, and no file exists. *)
Definition loader_env : Env :=
  {| import_meta_url := "file:///cli/dist/services/PluginApi.js";
     loadJSON := fun path _ =>
       if String.eqb path "../package.json"
       then inr (VObj [ ("version", VStr "1.2.3") ])
       else if String.eqb path "cache-loader/package.json"
       then inr (VObj [ ("name", VStr "cache-loader") ])
       else inl (Error "Cannot find module");
     process_env := fun name =>
       if String.eqb name "REACT_CLI_TEST" then Some "false" else None;
     fs_existsSync := fun _ => false;
     fs_readFileSync := fun _ => None |}.

(** The sample host with an object for its configureWebpack option: the
    object holds a function whose source has CRLF line endings. *)
Definition object_host : Host :=
  mkHost (mkService "1.2.3" "/proj" [] ∅ [] [] []
            (mkUserOptions VUndefined (VObj [("plugins", VFun text_crlf)])))
         [].

Section PluginApi.

(** The libraries the class calls: [semver.satisfies(version, range,
    { includePrerelease })], which answers [false] on a malformed range or
    version and never throws; [hash-sum]; and [path.resolve(from, to)]. *)
Variable semver_satisfies : string -> string -> bool -> bool.
Variable hash : value -> string.
Variable path_resolve : string -> string -> string.

(** [get version()]. *)
Definition version : M string :=
  s ← get_service; mret (pkgJson_version s).

Definition assertVersion (range : value) : M unit :=
  range ← match range with
          | VNum n =>
              if Number_isInteger n
              then mret (VStr ("^" +:+ Number_toString n +:+ ".0.0-0"))
              else throw (Error invalid_range_message)
          | _ => mret range
          end;
  match range with
  | VStr range =>
      v ← version;
      if semver_satisfies v range true then mret tt
      else throw (Error (incompatible_version_message range v))
  | _ => throw (Error invalid_range_message)
  end.

(** [getCwd()]. *)
Definition getCwd : M string :=
  s ← get_service; mret (context s).

(** [resolve(_path)]. *)
Definition resolve (_path : string) : M string :=
  s ← get_service; mret (path_resolve (context s) _path).

(** [this.service.commands[name] = { fn, options: options || {} }]. *)
Definition registerCommand (name : string) (options fn : value) : M unit :=
  s ← get_service;
  put_service
    (set_commands s
       (<[name := mkCommand fn (js_or options (VObj []))]> (commands s))).

(** A plugin's calls of [registerCommand], one after the other. *)
Fixpoint registerCommands (regs : list (string * value * value)) : M unit :=
  match regs with
  | [] => mret tt
  | (name, opts, f) :: rest =>
      _ ← registerCommand name opts f; registerCommands rest
  end.

(** [this.service.webpackChainFns.push(fn)]. *)
Definition chainWebpack (fn : value) : M unit :=
  s ← get_service;
  put_service (set_webpackChainFns s (webpackChainFns s ++ [fn])).

(** [this.service.webpackRawConfigFns.push(fn)]. *)
Definition configureWebpack (fn : value) : M unit :=
  s ← get_service;
  put_service (set_webpackRawConfigFns s (webpackRawConfigFns s ++ [fn])).

(** [this.service.devServerConfigFns.push(fn)]. *)
Definition configureDevServer (fn : value) : M unit :=
  s ← get_service;
  put_service (set_devServerConfigFns s (devServerConfigFns s ++ [fn])).

(** Modelled from the spec: [Service.resolveChainableWebpackConfig], to which
    the method of the same name delegates, is not among the sources.  The
    spec has it invoke every registered chain-mutation function in
    registration order on one builder; only those calls are recorded here. *)
Definition resolveChainableWebpackConfig : M unit :=
  fun h =>
    (Returned tt,
     mkHost (service h) (invoked h ++ webpackChainFns (service h))).

(** *** getCacheIdentifier *)

(** [fmtFunc]. *)
Definition fmtFunc (conf : value) : value :=
  match conf with
  | VFun source => VStr (replace_crlf source)
  | _ => conf
  end.

(** [loadJSON(path, import.meta.url).version]. *)
Definition loadJSON_version (env : Env) (path : string) : M value :=
  match loadJSON env path (import_meta_url env) with
  | inl e => throw e
  | inr json => get_version json
  end.

(** [process.env.NAME]. *)
Definition process_env_value (env : Env) (name : string) : value :=
  match process_env env name with
  | Some s => VStr s
  | None => VUndefined
  end.

(** Lines 194 to 201: the files whose contents enter the fingerprint. *)
Definition allConfigFiles (configFiles : configFiles_arg) : list string :=
  let configFiles :=
    match configFiles with
    | CF_default => []
    | CF_array files => files
    | CF_string file => [file]
    end in
  configFiles ++ lockfiles.

(** [readConfig]: the text of the file, or [undefined] ([None]). *)
Definition readConfig (env : Env) (file : string) : M (option string) :=
  absolutePath ← resolve file;
  if negb (fs_existsSync env absolutePath) then mret None
  else
    try_catch
      (match fs_readFileSync env absolutePath with
       | Some content => mret (Some content)
       | None => throw (Error "readFileSync")
       end)
      (fun e => mret None).

(** The callback of [configFiles.map]:
    [content && content.replace(/\r\n?/g, '\n')]. *)
Definition configFileEntry (env : Env) (file : string) : M value :=
  content ← readConfig env file;
  mret match content with
       | None => VUndefined
       | Some text =>
           if truthy (VStr text) then VStr (replace_crlf text) else VStr text
       end.

(** Lines 174 to 216: the variables bag that is hashed. *)
Definition cacheVariables (env : Env) (partialIdentifier : value)
    (configFiles : configFiles_arg) : M value :=
  cli_service ← loadJSON_version env "../package.json";
  s ← get_service;
  let variables :=
    [ ("partialIdentifier", partialIdentifier);
      ("cli-service", cli_service);
      ("env", process_env_value env "NODE_ENV");
      ("test", VBool (truthy (process_env_value env "REACT_CLI_TEST")));
      ("config", VArr [ fmtFunc (uo_chainWebpack (userOptions s));
                        fmtFunc (uo_configureWebpack (userOptions s)) ]) ] in
  variables ← try_catch
                (cache_loader ← loadJSON_version env "cache-loader/package.json";
                 mret (obj_set "cache-loader" cache_loader variables))
                (fun e => mret variables);
  contents ← mapM (configFileEntry env) (allConfigFiles configFiles);
  mret (VObj (obj_set "configFiles" (VArr contents) variables)).

Definition getCacheIdentifier (env : Env) (id : string) (partialIdentifier : value)
    (configFiles : configFiles_arg) : M CacheResult :=
  cacheDirectory ← resolve ("node_modules/.cache/" +:+ id);
  variables ← cacheVariables env partialIdentifier configFiles;
  let cacheIdentifier := hash variables in
  mret (mkCacheResult cacheDirectory cacheIdentifier).

(** The variables bag in closed form, given the version read from the
    host's own package.json and the result of reading cache-loader's. *)
Definition variables_bag (env : Env) (s : Service) (partialIdentifier : value)
    (configFiles : configFiles_arg) (cli_service : value)
    (cache_loader : outcome value) : value :=
  VObj
    ([ ("partialIdentifier", partialIdentifier);
       ("cli-service", cli_service);
       ("env", process_env_value env "NODE_ENV");
       ("test", VBool (truthy (process_env_value env "REACT_CLI_TEST")));
       ("config", VArr [ fmtFunc (uo_chainWebpack (userOptions s));
                         fmtFunc (uo_configureWebpack (userOptions s)) ]) ]
     ++ match cache_loader with
        | Returned v => [("cache-loader", v)]
        | Thrown _ => []
        end
     ++ [ ("configFiles",
           VArr (map (fun file =>
                        file_contribution
                          (file_text env (path_resolve (context s) file)))
                   (allConfigFiles configFiles))) ]).

(** A property of a bag. *)
Definition bag_get (key : string) (bag : value) : value :=
  match bag with
  | VObj props => obj_get key props
  | _ => VUndefined
  end.

(** The names of a bag's properties, in order. *)
Definition bag_keys (bag : value) : list string :=
  match bag with
  | VObj props => map fst props
  | _ => []
  end.

(** *** The rest of the class *)

(** [matchesPluginId(input, full)] of [../utils/plugin.js], which is not
    among the sources: whether the id a caller gives names the plugin with
    the given full id. *)
Variable matchesPluginId : string -> string -> bool.

(** [hasPlugin(id)]: [this.service.plugins.some(p => matchesPluginId(id, p.id))];
    [plugins] holds the ids of the plugins. *)
Definition hasPlugin (id : string) : M bool :=
  s ← get_service;
  mret (existsb (fun p_id => matchesPluginId id p_id) (plugins s)).

(** [typeof conf === 'function']. *)
Definition is_function (conf : value) : bool :=
  match conf with
  | VFun _ => true
  | _ => false
  end.

(** Calls of one registration method on each function of a list, in order. *)
Fixpoint register_each (register : value -> M unit) (fns : list value)
  : M unit :=
  match fns with
  | [] => mret tt
  | f :: rest => _ ← register f; register_each register rest
  end.

(** The registration of [name] that comes last in a sequence of
    registrations, as the command it stores. *)
Fixpoint last_registration (name : string)
    (regs : list (string * value * value)) : option Command :=
  match regs with
  | [] => None
  | (n, opts, f) :: rest =>
      match last_registration name rest with
      | Some c => Some c
      | None =>
          if String.eqb n name
          then Some (mkCommand f (js_or opts (VObj [])))
          else None
      end
  end.

(** Two fingerprint computations agree on what the code reads: the project
    root, the two user options up to the line endings of a function's
    source, the two package.json files, NODE_ENV, whether REACT_CLI_TEST is
    set to a non-empty text, and, up to line endings, the text of each of the
    files the call names and of the three lockfiles. *)
Definition same_named_inputs (env1 env2 : Env) (s1 s2 : Service)
    (configFiles : configFiles_arg) : Prop :=
  context s1 = context s2 /\
  same_option_value (uo_chainWebpack (userOptions s1))
                    (uo_chainWebpack (userOptions s2)) /\
  same_option_value (uo_configureWebpack (userOptions s1))
                    (uo_configureWebpack (userOptions s2)) /\
  loadJSON env1 "../package.json" (import_meta_url env1)
    = loadJSON env2 "../package.json" (import_meta_url env2) /\
  loadJSON env1 "cache-loader/package.json" (import_meta_url env1)
    = loadJSON env2 "cache-loader/package.json" (import_meta_url env2) /\
  process_env env1 "NODE_ENV" = process_env env2 "NODE_ENV" /\
  truthy (process_env_value env1 "REACT_CLI_TEST")
    = truthy (process_env_value env2 "REACT_CLI_TEST") /\
  (forall file : string,
     In file (allConfigFiles configFiles) ->
     replace_crlf <$> file_text env1 (path_resolve (context s1) file)
       = replace_crlf <$> file_text env2 (path_resolve (context s2) file)).

(** ** Numbers and strings *)

Lemma string_app_assoc (a b c : string) : (a +:+ b) +:+ c = a +:+ b +:+ c.
Proof.
  induction a as [|x a IH]; [reflexivity|].
  change (String x ((a +:+ b) +:+ c) = String x (a +:+ b +:+ c)).
  f_equal; exact IH.
Qed.

(** An integer-valued rational is the quotient of its numerator by its
    denominator. *)
Lemma Number_toZ_value (q : Q) (N : Z) :
  q == inject_Z N -> Number_toZ (Finite q) = N.
Proof.
  unfold Qeq, Number_toZ; simpl. intros H.
  rewrite Z.mul_1_r in H. rewrite H. apply Z.div_mul. discriminate.
Qed.

Lemma Number_isInteger_value (q : Q) (N : Z) :
  q == inject_Z N -> Number_isInteger (Finite q) = true.
Proof.
  unfold Qeq, Number_isInteger; simpl. intros H.
  rewrite Z.mul_1_r in H. rewrite H, Z.mod_mul by discriminate. reflexivity.
Qed.

Lemma Number_isInteger_Finite (q : Q) :
  Number_isInteger (Finite q) = true -> q == inject_Z (Number_toZ (Finite q)).
Proof.
  unfold Qeq, Number_isInteger, Number_toZ; simpl. intros H.
  apply Z.eqb_eq in H. rewrite Z.mul_1_r.
  rewrite (Z.div_mod (Qnum q) (Z.pos (Qden q))) at 1 by discriminate.
  rewrite H. lia.
Qed.

Lemma round_to_double_small (v x : Z) :
  x < 2 ^ 53 -> round_to_double v = x -> v = x.
Proof.
  intros Hx. unfold round_to_double.
  destruct (Z.leb_spec (Z.log2 v + 1) 53) as [Hb | Hb]; [auto|].
  intros Hround. exfalso.
  assert (Hpos : 0 < v).
  { destruct (Z.lt_ge_cases 0 v) as [H | H]; [exact H|].
    rewrite (Z.log2_nonpos v H) in Hb. lia. }
  pose proof (Z.log2_spec v Hpos) as [Hlow _].
  set (e := Z.log2 v + 1 - 53) in *.
  assert (He : 0 < e) by (unfold e; lia).
  assert (Hpow : 2 ^ Z.log2 v = 2 ^ e * 2 ^ 52).
  { rewrite <- Z.pow_add_r by lia. f_equal. unfold e. lia. }
  assert (Hq : 2 ^ 52 <= v / 2 ^ e).
  { apply Z.div_le_lower_bound; [apply Z.pow_pos_nonneg; lia | lia]. }
  assert (H2e : 2 <= 2 ^ e).
  { change 2 with (2 ^ 1) at 1. apply Z.pow_le_mono_r; lia. }
  assert (Hbig : 2 ^ 53 <= x).
  { rewrite <- Hround. change (2 ^ 53) with (2 ^ 52 * 2).
    apply Z.mul_le_mono_nonneg; try lia.
    destruct ((2 ^ (e - 1) <? v mod 2 ^ e)
              || (v mod 2 ^ e =? 2 ^ (e - 1)) && Z.odd (v / 2 ^ e)); lia. }
  lia.
Qed.

Lemma digits_at_rounds (x d k s m : Z) :
  digits_at x d k = Some (s, m) -> round_to_double (s * 10 ^ m) = x.
Proof.
  unfold digits_at.
  destruct (Z.eqb_spec (round_to_double (x / 10 ^ (d - k) * 10 ^ (d - k))) x)
    as [Hlo | Hlo];
  destruct (Z.eqb_spec
              (round_to_double ((x / 10 ^ (d - k) + 1) * 10 ^ (d - k))) x)
    as [Hhi | Hhi];
  destruct (x / 10 ^ (d - k) + 1 <? 10 ^ k); simpl;
  repeat match goal with
         | |- context [if ?c then _ else _] => destruct c
         end;
  intros [= <- <-]; assumption.
Qed.

Lemma shortest_from_rounds (x d : Z) (fuel : nat) (k s m : Z) :
  shortest_from x d k fuel = Some (s, m) -> round_to_double (s * 10 ^ m) = x.
Proof.
  revert k. induction fuel as [|fuel IH]; intros k; simpl; [discriminate|].
  destruct (digits_at x d k) as [[s' m']|] eqn:Hk.
  - intros [= <- <-]. eapply digits_at_rounds; eassumption.
  - apply IH.
Qed.

Lemma shortest_digits_small (x : Z) :
  x < 2 ^ 53 -> let '(s, m) := shortest_digits x in s * 10 ^ m = x.
Proof.
  intros Hx. unfold shortest_digits.
  destruct (Z.eqb_spec (round_to_double (10 ^ decimal_length x)) x) as [H | H].
  - apply (round_to_double_small _ _ Hx) in H. lia.
  - destruct (shortest_from x (decimal_length x) 1
                (Z.to_nat (decimal_length x))) as [[s m]|] eqn:Hs.
    + apply shortest_from_rounds in Hs.
      now apply (round_to_double_small _ _ Hx).
    + simpl. lia.
Qed.

Lemma positive_toString_small (x : Z) :
  x < 2 ^ 53 -> positive_toString x = pretty x.
Proof.
  intros Hx. unfold positive_toString.
  pose proof (shortest_digits_small x Hx) as Hv.
  destruct (shortest_digits x) as [s m]. rewrite Hv.
  destruct (Z.ltb_spec x (10 ^ 21)) as [_ | Hbig]; [reflexivity|].
  assert (2 ^ 53 < 10 ^ 21) by reflexivity. lia.
Qed.

Lemma integer_toString_safe (z : Z) :
  Z.abs z < 2 ^ 53 -> integer_toString z = pretty z.
Proof.
  intros Hz. destruct z as [|p|p]; simpl.
  - reflexivity.
  - apply positive_toString_small. lia.
  - rewrite positive_toString_small by lia. reflexivity.
Qed.

(** What the template literal gives at some integers: the decimal numeral
    up to 2^53, the shortest digits and zeros above, exponent notation from
    10^21 on. *)
Example Number_toString_samples :
  Number_toString (Finite (0 # 1)) = "0" /\
  Number_toString (Finite (-3 # 1)) = "-3" /\
  Number_toString (Finite (2 ^ 53 # 1)) = "9007199254740992" /\
  Number_toString (Finite (2 ^ 60 # 1)) = "1152921504606847000" /\
  Number_toString (Finite (10 ^ 21 # 1)) = "1e+21" /\
  Number_toString (Finite (2 ^ 70 # 1)) = "1.1805916207174113e+21" /\
  Number_toString (Finite (- 10 ^ 22 # 1)) = "-1e+22".
Proof. vm_compute. repeat split. Qed.

Lemma messages_differ (r v : string) :
  invalid_range_message <> incompatible_version_message r v.
Proof. discriminate. Qed.

(** ** The version guard *)

Lemma assertVersion_string (R : string) (h : Host) :
  assertVersion (VStr R) h =
    if semver_satisfies (pkgJson_version (service h)) R true
    then (Returned tt, h)
    else (Thrown (Error (incompatible_version_message R
                           (pkgJson_version (service h)))), h).
Proof.
  unfold assertVersion, version, get_service, mbind, M_bind, mret, M_ret, throw.
  now destruct (semver_satisfies _ _ _).
Qed.

Lemma assertVersion_integer (n : number) (h : Host) :
  Number_isInteger n = true ->
  assertVersion (VNum n) h =
    assertVersion (VStr ("^" +:+ Number_toString n +:+ ".0.0-0")) h.
Proof.
  intros Hn. unfold assertVersion at 1.
  unfold mbind, M_bind at 1. rewrite Hn.
  unfold mret at 1, M_ret at 1. rewrite assertVersion_string.
  unfold version, get_service, mbind, M_bind, mret, M_ret, throw.
  cbn [service fst snd]. now destruct (semver_satisfies _ _ _).
Qed.

Lemma Number_toString_safe (q : Q) (N : Z) :
  q == inject_Z N -> Z.abs N < 2 ^ 53 ->
  Number_toString (Finite q) = pretty N.
Proof.
  intros Hq HN. unfold Number_toString.
  rewrite (Number_toZ_value q N Hq). now apply integer_toString_safe.
Qed.

Lemma assertVersion_malformed (range : value) (h : Host) :
  malformed_range range = true ->
  assertVersion range h = (Thrown (Error invalid_range_message), h).
Proof.
  unfold assertVersion, mbind, M_bind, mret, M_ret, throw.
  destruct range as [| | b | n | r | f | l | o]; simpl; try reflexivity;
    try discriminate.
  now destruct (Number_isInteger n).
Qed.

(** C2: for a range given as a string R and the host version V,
    assertVersion throws exactly when semver.satisfies(V, R) with
    includePrerelease set answers false, and returns normally, leaving the
    host as it was, exactly when it answers true. *)
Theorem assertVersion_throws_iff_unsatisfied (R : string) (h : Host) :
  let V := pkgJson_version (service h) in
  ((exists e, assertVersion (VStr R) h = (Thrown e, h))
     <-> semver_satisfies V R true = false) /\
  (assertVersion (VStr R) h = (Returned tt, h)
     <-> semver_satisfies V R true = true).
Proof.
  intros V. rewrite assertVersion_string. fold V.
  destruct (semver_satisfies V R true); split; split;
    try reflexivity; try discriminate; eauto.
  intros [e He]. discriminate.
Qed.

(** C3 (as amended): assertVersion called with a number whose value is the
    integer N (in any representation q of that number) does exactly what
    assertVersion called with the string that the template literal of line
    31 gives for it does: same result or same thrown error, same host
    afterwards.  For N of magnitude below 2^53, the safe integers, that
    string is ^N.0.0-0 with N as its decimal numeral. *)
Theorem assertVersion_integer_as_caret_range (N : Z) (q : Q) (h : Host) :
  q == inject_Z N ->
  assertVersion (VNum (Finite q)) h =
    assertVersion (VStr ("^" +:+ Number_toString (Finite q) +:+ ".0.0-0")) h /\
  (Z.abs N < 2 ^ 53 ->
   assertVersion (VNum (Finite q)) h =
     assertVersion (VStr ("^" +:+ pretty N +:+ ".0.0-0")) h).
Proof.
  intros Hq.
  pose proof (assertVersion_integer (Finite q) h
                (Number_isInteger_value q N Hq)) as Hint.
  split; [exact Hint|].
  intros HN. now rewrite <- (Number_toString_safe q N Hq HN).
Qed.

(** C6: on a number that is not an integer, and on a value that is neither a
    number nor a string, assertVersion throws the error 'Expected string or
    integer value.'; it does not throw the incompatible-version error and
    does not return. *)
Theorem assertVersion_invalid_range (range : value) (h : Host) :
  malformed_range range = true ->
  assertVersion range h = (Thrown (Error invalid_range_message), h) /\
  (forall r v h',
      assertVersion range h
        <> (Thrown (Error (incompatible_version_message r v)), h')) /\
  (forall u h', assertVersion range h <> (Returned u, h')).
Proof.
  intros Hm. rewrite (assertVersion_malformed range h Hm).
  split; [reflexivity|]. split.
  - intros r v h' H. pose proof (messages_differ r v) as Hd. congruence.
  - intros u h' H. discriminate.
Qed.

(** C9: when assertVersion throws an error other than the malformed-range
    one, that error is the incompatible-version error, and its message
    contains the required range (the caret range for an integer argument)
    and the version of the host. *)
Theorem assertVersion_incompatible_message
    (range : value) (h h' : Host) (e : exn) :
  assertVersion range h = (Thrown e, h') ->
  e <> Error invalid_range_message ->
  exists r : string,
    required_range range = Some r /\
    e = Error (incompatible_version_message r (pkgJson_version (service h))) /\
    occurs_in r (incompatible_version_message r (pkgJson_version (service h))) /\
    occurs_in (pkgJson_version (service h))
      (incompatible_version_message r (pkgJson_version (service h))).
Proof.
  intros Hthrow Hne.
  assert (Hstr : forall r, assertVersion (VStr r) h = (Thrown e, h') ->
            e = Error (incompatible_version_message r
                         (pkgJson_version (service h)))).
  { intros r. rewrite assertVersion_string.
    destruct (semver_satisfies _ _ _); [discriminate|]. congruence. }
  assert (Hocc : forall r v,
            occurs_in r (incompatible_version_message r v) /\
            occurs_in v (incompatible_version_message r v)).
  { intros r v. split.
    - exists ("Require @planjs/react-cli-service " +:+ dquote),
        (dquote +:+ ", but was loaded with " +:+ dquote +:+ v +:+ dquote +:+ ".").
      reflexivity.
    - exists ("Require @planjs/react-cli-service " +:+ dquote +:+ r +:+ dquote
                +:+ ", but was loaded with " +:+ dquote),
        (dquote +:+ ".").
      unfold incompatible_version_message.
      now rewrite !string_app_assoc. }
  destruct (malformed_range range) eqn:Hm.
  - rewrite (assertVersion_malformed range h Hm) in Hthrow. congruence.
  - destruct range as [| | b | n | r | f | l | o]; try discriminate.
    + simpl in Hm. apply negb_false_iff in Hm.
      rewrite (assertVersion_integer n h Hm) in Hthrow.
      exists ("^" +:+ Number_toString n +:+ ".0.0-0"). simpl. rewrite Hm.
      split; [reflexivity|]. split; [now apply Hstr | apply Hocc].
    + exists r. split; [reflexivity|]. split; [now apply Hstr | apply Hocc].
Qed.

(** ** The capability registry *)

Lemma registerCommand_run (name : string) (opts f : value) (h : Host) :
  registerCommand name opts f h =
    (Returned tt,
     mkHost (set_commands (service h)
               (<[name := mkCommand f (js_or opts (VObj []))]>
                  (commands (service h))))
            (invoked h)).
Proof. reflexivity. Qed.

Lemma js_or_non_null (a b : value) :
  non_null b = true -> non_null (js_or a b) = true.
Proof.
  unfold js_or. intros Hb. destruct (truthy a) eqn:Ha; [|exact Hb].
  now destruct a.
Qed.

Lemma registerCommand_preserves (name : string) (opts f : value) (h : Host) :
  options_never_null (service h) ->
  options_never_null (service (host_after (registerCommand name opts f) h)).
Proof.
  unfold options_never_null, host_after. rewrite registerCommand_run. simpl.
  intros Hall. apply map_Forall_insert_2; [|exact Hall].
  simpl. now apply js_or_non_null.
Qed.

Lemma registerCommands_preserves (regs : list (string * value * value))
    (h : Host) :
  options_never_null (service h) ->
  result_of (registerCommands regs) h = Returned tt /\
  options_never_null (service (host_after (registerCommands regs) h)).
Proof.
  revert h. induction regs as [|[[name opts] f] rest IH]; intros h Hall.
  - now split.
  - pose proof (registerCommand_preserves name opts f h Hall) as Hstep.
    destruct (IH _ Hstep) as [Hres Hinv].
    unfold result_of, host_after in *. simpl.
    unfold mbind, M_bind. rewrite registerCommand_run in *. now split.
Qed.

(** C5 (as amended): registering a name twice keeps the second
    registration.  From any host, after registerCommand (name, options1,
    handler1) and then registerCommand (name, options2, handler2), both calls
    return without an error and the table maps name to handler2 and to
    options2 || {}: to options2 itself when it is truthy, as every object
    is, and to the empty object when it is null, undefined or another falsy
    value.  Commands under other names are as after the first call. *)
Theorem registerCommand_last_writer_wins
    (name : string) (options1 handler1 options2 handler2 : value) (h : Host) :
  let twice := (_ ← registerCommand name options1 handler1;
                registerCommand name options2 handler2) in
  result_of twice h = Returned tt /\
  commands (service (host_after twice h)) !! name
    = Some (mkCommand handler2 (js_or options2 (VObj []))) /\
  (truthy options2 = true ->
   commands (service (host_after twice h)) !! name
     = Some (mkCommand handler2 options2)) /\
  (forall other : string, other <> name ->
     commands (service (host_after twice h)) !! other
       = commands (service h) !! other).
Proof.
  intros twice. unfold twice, result_of, host_after, mbind, M_bind.
  rewrite !registerCommand_run. simpl.
  split; [reflexivity|]. split; [apply lookup_insert_eq|]. split.
  - intros Ht. unfold js_or at 1. rewrite lookup_insert_eq. unfold js_or.
    now rewrite Ht.
  - intros other Hne. now rewrite !lookup_insert_ne by congruence.
Qed.

(** C10: registerCommand called with null or undefined for the options
    stores the command with the empty object as its options; and no sequence
    of registerCommand calls, whatever options they pass, leaves a command
    whose options field is null or undefined in a table that had none. *)
Theorem registerCommand_options_never_null
    (name : string) (opts handler : value)
    (regs : list (string * value * value)) (h : Host) :
  options_never_null (service h) ->
  commands (service (host_after (registerCommand name VNull handler) h))
    !! name = Some (mkCommand handler (VObj [])) /\
  commands (service (host_after (registerCommand name VUndefined handler) h))
    !! name = Some (mkCommand handler (VObj [])) /\
  options_never_null
    (service (host_after (registerCommand name opts handler) h)) /\
  options_never_null (service (host_after (registerCommands regs) h)).
Proof.
  intros Hall. unfold host_after at 1 2. rewrite !registerCommand_run. simpl.
  rewrite !lookup_insert_eq. repeat split.
  - now apply registerCommand_preserves.
  - now apply registerCommands_preserves.
Qed.

Lemma chainWebpack_run (f : value) (h : Host) :
  chainWebpack f h =
    (Returned tt,
     mkHost (set_webpackChainFns (service h)
               (webpackChainFns (service h) ++ [f])) (invoked h)).
Proof. reflexivity. Qed.

Lemma configureWebpack_run (f : value) (h : Host) :
  configureWebpack f h =
    (Returned tt,
     mkHost (set_webpackRawConfigFns (service h)
               (webpackRawConfigFns (service h) ++ [f])) (invoked h)).
Proof. reflexivity. Qed.

Lemma configureDevServer_run (f : value) (h : Host) :
  configureDevServer f h =
    (Returned tt,
     mkHost (set_devServerConfigFns (service h)
               (devServerConfigFns (service h) ++ [f])) (invoked h)).
Proof. reflexivity. Qed.

(** Resolution is what calls the chain functions: all of them, in the order
    they were registered. *)
Lemma resolveChainableWebpackConfig_invokes (h : Host) :
  invoked (host_after resolveChainableWebpackConfig h)
    = invoked h ++ webpackChainFns (service h).
Proof. reflexivity. Qed.

Lemma chainWebpack_then_resolve (f : value) (h : Host) :
  invoked (host_after (_ ← chainWebpack f; resolveChainableWebpackConfig) h)
    = invoked h ++ webpackChainFns (service h) ++ [f].
Proof. reflexivity. Qed.

(** C8: chainWebpack, configureWebpack and configureDevServer return after
    putting their argument at the end of their own list: the entries that
    were in it keep their places, the two other lists, the commands and the
    rest of the service are as before, and no user function has been called
    (the record of calls is as before). *)
Theorem registration_is_append_only_and_lazy (f : value) (h : Host) :
  let s := service h in
  (let h' := host_after (chainWebpack f) h in
   result_of (chainWebpack f) h = Returned tt /\
   webpackChainFns (service h') = webpackChainFns s ++ [f] /\
   (forall (i : nat) (x : value),
      webpackChainFns s !! i = Some x ->
      webpackChainFns (service h') !! i = Some x) /\
   webpackRawConfigFns (service h') = webpackRawConfigFns s /\
   devServerConfigFns (service h') = devServerConfigFns s /\
   same_registry_frame s (service h') /\
   invoked h' = invoked h) /\
  (let h' := host_after (configureWebpack f) h in
   result_of (configureWebpack f) h = Returned tt /\
   webpackRawConfigFns (service h') = webpackRawConfigFns s ++ [f] /\
   (forall (i : nat) (x : value),
      webpackRawConfigFns s !! i = Some x ->
      webpackRawConfigFns (service h') !! i = Some x) /\
   webpackChainFns (service h') = webpackChainFns s /\
   devServerConfigFns (service h') = devServerConfigFns s /\
   same_registry_frame s (service h') /\
   invoked h' = invoked h) /\
  (let h' := host_after (configureDevServer f) h in
   result_of (configureDevServer f) h = Returned tt /\
   devServerConfigFns (service h') = devServerConfigFns s ++ [f] /\
   (forall (i : nat) (x : value),
      devServerConfigFns s !! i = Some x ->
      devServerConfigFns (service h') !! i = Some x) /\
   webpackChainFns (service h') = webpackChainFns s /\
   webpackRawConfigFns (service h') = webpackRawConfigFns s /\
   same_registry_frame s (service h') /\
   invoked h' = invoked h).
Proof.
  intros s. unfold host_after, result_of.
  rewrite chainWebpack_run, configureWebpack_run, configureDevServer_run.
  simpl. repeat split; intros i x Hx; now apply lookup_app_l_Some.
Qed.

(** ** The cache fingerprint *)

(** *** Line endings *)

Lemma replace_crlf_lf_only (s : string) : lf_only (replace_crlf s) = true.
Proof.
  induction s as [|c s IH]; [reflexivity|]. simpl.
  destruct (Ascii.eqb c CR) eqn:Hc.
  - destruct s as [|c' s']; [reflexivity|].
    destruct (Ascii.eqb c' LF) eqn:Hc'.
    + simpl in IH. destruct (Ascii.eqb c' CR) eqn:Hcr.
      * apply Ascii.eqb_eq in Hc', Hcr. subst c'. discriminate.
      * simpl in IH. apply andb_true_iff in IH. simpl. apply IH.
    + simpl. exact IH.
  - simpl. now rewrite Hc.
Qed.

Lemma replace_crlf_fixes_lf_only (s : string) :
  lf_only s = true -> replace_crlf s = s.
Proof.
  induction s as [|c s IH]; [reflexivity|]. simpl.
  intros H. apply andb_true_iff in H as [Hc Hs].
  apply negb_true_iff in Hc. rewrite Hc. f_equal. now apply IH.
Qed.

Lemma replace_crlf_idempotent (s : string) :
  replace_crlf (replace_crlf s) = replace_crlf s.
Proof. apply replace_crlf_fixes_lf_only, replace_crlf_lf_only. Qed.

Lemma join_lf_cons (c : ascii) (l : string) (ls : list string) :
  join_lf (String c l, ls) = String c (join_lf (l, ls)).
Proof. reflexivity. Qed.

Lemma join_lf_break (l : string) (ls : list string) :
  join_lf (EmptyString, l :: ls) = String LF (join_lf (l, ls)).
Proof. reflexivity. Qed.

Lemma split_lines_eta (s : string) :
  ((split_lines s).1, (split_lines s).2) = split_lines s.
Proof. now destruct (split_lines s). Qed.

Lemma join_lf_split_lines (s : string) : join_lf (split_lines s) = replace_crlf s.
Proof.
  induction s as [|c s IH]; [reflexivity|].
  cbn [split_lines replace_crlf].
  destruct (Ascii.eqb c CR) eqn:Hc.
  - destruct s as [|c' s']; [reflexivity|].
    destruct (Ascii.eqb c' LF) eqn:Hc'.
    + apply Ascii.eqb_eq in Hc'. subst c'. exact IH.
    + rewrite join_lf_break, split_lines_eta. now rewrite IH.
  - destruct (Ascii.eqb c LF) eqn:Hl.
    + apply Ascii.eqb_eq in Hl. subst c.
      rewrite join_lf_break, split_lines_eta. now rewrite IH.
    + rewrite join_lf_cons, split_lines_eta. now rewrite IH.
Qed.

Lemma split_lines_replace_crlf (s : string) :
  split_lines (replace_crlf s) = split_lines s.
Proof.
  induction s as [|c s IH]; [reflexivity|].
  cbn [replace_crlf].
  destruct (Ascii.eqb c CR) eqn:Hc.
  - apply Ascii.eqb_eq in Hc. subst c.
    destruct s as [|c' s']; [reflexivity|].
    destruct (Ascii.eqb c' LF) eqn:Hc'.
    + apply Ascii.eqb_eq in Hc'. subst c'. exact IH.
    + change (split_lines (String CR (String c' s')))
        with (if Ascii.eqb c' LF
              then (EmptyString, (split_lines s').1 :: (split_lines s').2)
              else (EmptyString, (split_lines (String c' s')).1
                                   :: (split_lines (String c' s')).2)).
      rewrite Hc', <- IH. reflexivity.
  - cbn [split_lines]. rewrite Hc, IH. reflexivity.
Qed.

(** Two texts normalize to the same text exactly when they have the same
    lines, whatever ends each line. *)
Lemma replace_crlf_same_iff_same_lines (s1 s2 : string) :
  replace_crlf s1 = replace_crlf s2 <-> split_lines s1 = split_lines s2.
Proof.
  split; intros H.
  - now rewrite <- (split_lines_replace_crlf s1), H, split_lines_replace_crlf.
  - now rewrite <- !join_lf_split_lines, H.
Qed.

(** The three conventions of one two-line text give the same text. *)
Example replace_crlf_conventions :
  let crlf := "a" +:+ String CR (String LF "b") in
  let cr := "a" +:+ String CR "b" in
  let lf := "a" +:+ String LF "b" in
  replace_crlf crlf = lf /\ replace_crlf cr = lf /\ replace_crlf lf = lf /\
  split_lines crlf = ("a", ["b"]) /\ split_lines cr = ("a", ["b"]) /\
  split_lines lf = ("a", ["b"]).
Proof. repeat split. Qed.

Lemma fmtFunc_same_option_value (c1 c2 : value) :
  same_option_value c1 c2 -> fmtFunc c1 = fmtFunc c2.
Proof. intros [c | s1 s2 H]; [reflexivity | simpl; now rewrite H]. Qed.

(** *** What the methods compute *)

Lemma loadJSON_version_run (env : Env) (path : string) (h : Host) :
  loadJSON_version env path h = (result_of (loadJSON_version env path) h, h).
Proof.
  unfold result_of, loadJSON_version, get_version.
  destruct (loadJSON env path (import_meta_url env)) as [e | json];
    [reflexivity|].
  now destruct json.
Qed.

Lemma readConfig_run (env : Env) (file : string) (h : Host) :
  readConfig env file h =
    (Returned (file_text env (path_resolve (context (service h)) file)), h).
Proof.
  unfold readConfig, resolve, file_text, try_catch, get_service.
  unfold mbind, M_bind, mret, M_ret, throw.
  destruct (fs_existsSync env _); simpl; [|reflexivity].
  now destruct (fs_readFileSync env _).
Qed.

Lemma configFileEntry_run (env : Env) (file : string) (h : Host) :
  configFileEntry env file h =
    (Returned (file_contribution
                 (file_text env (path_resolve (context (service h)) file))),
     h).
Proof.
  unfold configFileEntry, mbind, M_bind at 1. rewrite readConfig_run.
  unfold mret, M_ret, file_contribution.
  destruct (file_text env _) as [text|]; [|reflexivity].
  simpl. now destruct text.
Qed.

Lemma mapM_configFileEntry_run (env : Env) (files : list string) (h : Host) :
  mapM (configFileEntry env) files h =
    (Returned
       (map (fun file =>
               file_contribution
                 (file_text env (path_resolve (context (service h)) file)))
          files),
     h).
Proof.
  induction files as [|file rest IH]; [reflexivity|].
  simpl. unfold mbind, M_bind at 1. rewrite configFileEntry_run.
  unfold mbind, M_bind at 1. rewrite IH. reflexivity.
Qed.

Lemma lookup_map {A B : Type} (f : A -> B) (l : list A) (i : nat) :
  map f l !! i = f <$> l !! i.
Proof.
  revert i. induction l as [|x l IH]; intros [|i]; try reflexivity.
  apply IH.
Qed.

Lemma cacheVariables_run (env : Env) (partialIdentifier : value)
    (configFiles : configFiles_arg) (h : Host) :
  cacheVariables env partialIdentifier configFiles h =
    match result_of (loadJSON_version env "../package.json") h with
    | Thrown e => (Thrown e, h)
    | Returned cli_service =>
        (Returned
           (variables_bag env (service h) partialIdentifier configFiles
              cli_service
              (result_of (loadJSON_version env "cache-loader/package.json") h)),
         h)
    end.
Proof.
  unfold cacheVariables. unfold mbind, M_bind at 1.
  rewrite loadJSON_version_run.
  destruct (result_of (loadJSON_version env "../package.json") h)
    as [cli|e]; [|reflexivity].
  unfold get_service at 1. unfold mbind, M_bind at 1.
  unfold try_catch, mbind, M_bind at 1.
  unfold mbind, M_bind at 1. rewrite loadJSON_version_run.
  destruct (result_of (loadJSON_version env "cache-loader/package.json") h)
    as [v|e]; unfold mret, M_ret at 1;
    unfold mbind, M_bind at 1; rewrite mapM_configFileEntry_run; reflexivity.
Qed.

Lemma getCacheIdentifier_run (env : Env) (id : string)
    (partialIdentifier : value) (configFiles : configFiles_arg) (h : Host) :
  getCacheIdentifier env id partialIdentifier configFiles h =
    match result_of (loadJSON_version env "../package.json") h with
    | Thrown e => (Thrown e, h)
    | Returned cli_service =>
        (Returned
           (mkCacheResult
              (path_resolve (context (service h))
                 ("node_modules/.cache/" +:+ id))
              (hash
                 (variables_bag env (service h) partialIdentifier configFiles
                    cli_service
                    (result_of
                       (loadJSON_version env "cache-loader/package.json") h)))),
         h)
    end.
Proof.
  unfold getCacheIdentifier, resolve, get_service.
  unfold mbind, M_bind at 1. unfold mbind, M_bind at 1.
  unfold mret, M_ret at 1. unfold mbind, M_bind at 1.
  rewrite cacheVariables_run.
  now destruct (result_of (loadJSON_version env "../package.json") h).
Qed.

(** C4: getCacheIdentifier throws only what reading the version from the
    host's own package.json throws.  Once that is read the call returns the
    pair of the cache directory and the hash of the variables bag, whatever
    loading cache-loader's metadata does and whatever the file system holds:
    a failed load of cache-loader leaves the bag without that entry, and a
    file that does not exist or cannot be read contributes undefined at its
    place in the configFiles entry. *)
Theorem getCacheIdentifier_resilient (env : Env) (id : string)
    (partialIdentifier : value) (configFiles : configFiles_arg) (h : Host) :
  let cache_loader :=
    result_of (loadJSON_version env "cache-loader/package.json") h in
  match result_of (loadJSON_version env "../package.json") h with
  | Thrown e =>
      getCacheIdentifier env id partialIdentifier configFiles h = (Thrown e, h)
  | Returned cli_service =>
      exists (bag : value) (contents : list value),
        getCacheIdentifier env id partialIdentifier configFiles h =
          (Returned
             (mkCacheResult
                (path_resolve (context (service h))
                   ("node_modules/.cache/" +:+ id))
                (hash bag)), h) /\
        cacheVariables env partialIdentifier configFiles h = (Returned bag, h) /\
        bag_get "configFiles" bag = VArr contents /\
        ((exists e, cache_loader = Thrown e) ->
         bag_keys bag = [ "partialIdentifier"; "cli-service"; "env"; "test";
                          "config"; "configFiles" ]) /\
        (forall (i : nat) (file : string),
           allConfigFiles configFiles !! i = Some file ->
           fs_existsSync env (path_resolve (context (service h)) file) = false
           \/ fs_readFileSync env (path_resolve (context (service h)) file)
              = None ->
           contents !! i = Some VUndefined)
  end.
Proof.
  intros cache_loader.
  rewrite getCacheIdentifier_run, cacheVariables_run. fold cache_loader.
  destruct (result_of (loadJSON_version env "../package.json") h)
    as [cli|e]; [|reflexivity].
  eexists _, _. split; [reflexivity|]. split; [reflexivity|].
  split; [|split].
  - unfold variables_bag. destruct cache_loader; reflexivity.
  - intros [e He]. now rewrite He.
  - intros i file Hfile Hmiss. rewrite lookup_map, Hfile. simpl.
    f_equal. unfold file_text.
    destruct Hmiss as [-> | Hread]; [reflexivity|].
    rewrite Hread. now destruct (fs_existsSync env _).
Qed.


Lemma loadJSON_version_same (env1 env2 : Env) (path : string) (h1 h2 : Host) :
  loadJSON env1 path (import_meta_url env1)
    = loadJSON env2 path (import_meta_url env2) ->
  result_of (loadJSON_version env1 path) h1
    = result_of (loadJSON_version env2 path) h2.
Proof.
  intros H. unfold result_of, loadJSON_version. rewrite H.
  destruct (loadJSON env2 path (import_meta_url env2)) as [e | json];
    [reflexivity|].
  now destruct json.
Qed.

Lemma file_contribution_same (t1 t2 : option string) :
  replace_crlf <$> t1 = replace_crlf <$> t2 ->
  file_contribution t1 = file_contribution t2.
Proof. destruct t1, t2; simpl; congruence. Qed.


Lemma variables_bag_config (env : Env) (s : Service)
    (partialIdentifier : value) (configFiles : configFiles_arg)
    (cli_service : value) (cache_loader : outcome value) :
  bag_get "config"
    (variables_bag env s partialIdentifier configFiles cli_service cache_loader)
    = VArr [ fmtFunc (uo_chainWebpack (userOptions s));
             fmtFunc (uo_configureWebpack (userOptions s)) ].
Proof. reflexivity. Qed.


(** ** Further properties *)

(** *** Line endings *)

(** X1: the text that replace(/\r\n?/g, '\n') gives holds no carriage
    return, and replacing again changes nothing. *)
Theorem replace_crlf_normal_form (s : string) :
  lf_only (replace_crlf s) = true /\
  replace_crlf (replace_crlf s) = replace_crlf s.
Proof.
  split; [apply replace_crlf_lf_only | apply replace_crlf_idempotent].
Qed.

(** X2: the replacement leaves a text as it is exactly when the text holds
    no carriage return. *)
Theorem replace_crlf_fixed_iff (s : string) :
  replace_crlf s = s <-> lf_only s = true.
Proof.
  split.
  - intros H. rewrite <- H. apply replace_crlf_lf_only.
  - apply replace_crlf_fixes_lf_only.
Qed.

(** X3: the fingerprint tells two files, and two function sources, apart
    exactly when their lines differ.  Two file states contribute the same
    value to the bag if and only if both are absent or both are texts with
    the same lines, whatever ends each line; two functions are formatted to
    the same value if and only if their sources have the same lines. *)
Theorem contribution_same_iff_same_lines
    (t1 t2 : option string) (src1 src2 : string) :
  (file_contribution t1 = file_contribution t2
     <-> split_lines <$> t1 = split_lines <$> t2) /\
  (fmtFunc (VFun src1) = fmtFunc (VFun src2)
     <-> split_lines src1 = split_lines src2).
Proof.
  split.
  - destruct t1 as [a|], t2 as [b|]; simpl; split; intros H;
      try discriminate; try reflexivity.
    + injection H as H. f_equal.
      now apply replace_crlf_same_iff_same_lines.
    + injection H as H. f_equal.
      now apply replace_crlf_same_iff_same_lines.
  - simpl. split; intros H.
    + injection H as H. now apply replace_crlf_same_iff_same_lines.
    + f_equal. now apply replace_crlf_same_iff_same_lines.
Qed.

(** *** The version guard, on every argument *)

Lemma assertVersion_host (range : value) (h : Host) :
  host_after (assertVersion range) h = h.
Proof.
  unfold host_after. destruct (malformed_range range) eqn:Hm.
  - now rewrite assertVersion_malformed.
  - destruct range as [| | b | n | r | f | l | o]; try discriminate.
    + simpl in Hm. apply negb_false_iff in Hm.
      rewrite (assertVersion_integer n h Hm), assertVersion_string.
      now destruct (semver_satisfies _ _ _).
    + rewrite assertVersion_string. now destruct (semver_satisfies _ _ _).
Qed.

(** X4: assertVersion returns normally exactly when its argument is an
    integer or a string and semver.satisfies accepts the host version for
    the range asked for (the caret range of the integer, or the string). *)
Theorem assertVersion_returns_iff (range : value) (h : Host) :
  result_of (assertVersion range) h = Returned tt
  <-> exists r : string,
        required_range range = Some r /\
        semver_satisfies (pkgJson_version (service h)) r true = true.
Proof.
  unfold result_of. destruct (malformed_range range) eqn:Hm.
  - rewrite (assertVersion_malformed range h Hm). simpl. split.
    + discriminate.
    + intros (r & Hr & _).
      destruct range as [| | b | n | r' | f | l | o]; try discriminate.
      simpl in Hm, Hr. apply negb_true_iff in Hm. rewrite Hm in Hr.
      discriminate.
  - destruct range as [| | b | n | r' | f | l | o]; try discriminate.
    + simpl in Hm. apply negb_false_iff in Hm.
      rewrite (assertVersion_integer n h Hm), assertVersion_string.
      simpl. rewrite Hm.
      destruct (semver_satisfies _ _ _) eqn:Hs; simpl; split.
      * intros _. eexists. split; [reflexivity | exact Hs].
      * reflexivity.
      * discriminate.
      * intros (r & [= <-] & Hr). congruence.
    + rewrite assertVersion_string. simpl.
      destruct (semver_satisfies _ _ _) eqn:Hs; simpl; split.
      * intros _. eexists. split; [reflexivity | exact Hs].
      * reflexivity.
      * discriminate.
      * intros (r & [= <-] & Hr). congruence.
Qed.

(** X5: what assertVersion does depends on the host only through the
    version in its package.json: on two hosts of the same version the same
    argument gives the same result, whatever else the hosts hold. *)
Theorem assertVersion_reads_version_only (range : value) (h1 h2 : Host) :
  pkgJson_version (service h1) = pkgJson_version (service h2) ->
  result_of (assertVersion range) h1 = result_of (assertVersion range) h2.
Proof.
  intros Hv. unfold result_of. destruct (malformed_range range) eqn:Hm.
  - now rewrite !assertVersion_malformed.
  - destruct range as [| | b | n | r | f | l | o]; try discriminate.
    + simpl in Hm. apply negb_false_iff in Hm.
      rewrite !(assertVersion_integer n _ Hm), !assertVersion_string, Hv.
      now destruct (semver_satisfies _ _ _).
    + rewrite !assertVersion_string, Hv.
      now destruct (semver_satisfies _ _ _).
Qed.

(** X6: the methods that answer a question change nothing.  After
    assertVersion, the version getter, getCwd, resolve, hasPlugin and
    getCacheIdentifier the host is as it was, whether the call returned or
    threw. *)
Theorem queries_leave_host_unchanged (env : Env) (range : value)
    (_path id : string) (partialIdentifier : value)
    (configFiles : configFiles_arg) (h : Host) :
  host_after (assertVersion range) h = h /\
  host_after version h = h /\
  host_after getCwd h = h /\
  host_after (resolve _path) h = h /\
  host_after (hasPlugin id) h = h /\
  host_after (getCacheIdentifier env id partialIdentifier configFiles) h = h.
Proof.
  split; [apply assertVersion_host|]. repeat split.
  unfold host_after. rewrite getCacheIdentifier_run.
  now destruct (result_of (loadJSON_version env "../package.json") h).
Qed.

(** *** The registry, over sequences of calls *)

Lemma registerCommands_cons (name : string) (opts f : value)
    (rest : list (string * value * value)) (h : Host) :
  registerCommands ((name, opts, f) :: rest) h =
    registerCommands rest
      (mkHost (set_commands (service h)
                 (<[name := mkCommand f (js_or opts (VObj []))]>
                    (commands (service h))))
              (invoked h)).
Proof. reflexivity. Qed.

(** X7: after any sequence of registerCommand calls the table maps every
    name to the last registration made under it in the sequence, and a name
    the sequence does not register is mapped as before. *)
Theorem registerCommands_last_registration
    (regs : list (string * value * value)) (name : string) (h : Host) :
  commands (service (host_after (registerCommands regs) h)) !! name =
    match last_registration name regs with
    | Some c => Some c
    | None => commands (service h) !! name
    end.
Proof.
  revert h. induction regs as [|[[n opts] f] rest IH]; intros h;
    [reflexivity|].
  unfold host_after in *. rewrite registerCommands_cons, IH. simpl.
  destruct (last_registration name rest) as [c|]; [reflexivity|].
  destruct (String.eqb_spec n name) as [-> | Hne].
  - apply lookup_insert_eq.
  - now apply lookup_insert_ne.
Qed.

(** X8: two registrations under different names can be made in either
    order, and making the same registration twice is making it once. *)
Theorem registerCommand_reorder (n1 n2 : string) (o1 f1 o2 f2 : value)
    (h : Host) :
  (n1 <> n2 ->
   (_ ← registerCommand n1 o1 f1; registerCommand n2 o2 f2) h
     = (_ ← registerCommand n2 o2 f2; registerCommand n1 o1 f1) h) /\
  (_ ← registerCommand n1 o1 f1; registerCommand n1 o1 f1) h
    = registerCommand n1 o1 f1 h.
Proof.
  unfold mbind, M_bind. rewrite !registerCommand_run. simpl. split.
  - intros Hne. do 2 f_equal. unfold set_commands. simpl. f_equal.
    now apply insert_insert_ne.
  - do 2 f_equal. unfold set_commands. simpl. f_equal.
    apply insert_insert_eq.
Qed.

(** X9: registerCommand writes the command table at its name and nothing
    else.  The names registered afterwards are the ones before together with
    the new name; the three lists of registered functions, the plugins, the
    user options, the version and the project root are as before, and no user
    function has been called. *)
Theorem registerCommand_frame (name : string) (opts f : value) (h : Host) :
  let h' := host_after (registerCommand name opts f) h in
  dom (commands (service h')) = {[name]} ∪ dom (commands (service h)) /\
  webpackChainFns (service h') = webpackChainFns (service h) /\
  webpackRawConfigFns (service h') = webpackRawConfigFns (service h) /\
  devServerConfigFns (service h') = devServerConfigFns (service h) /\
  plugins (service h') = plugins (service h) /\
  userOptions (service h') = userOptions (service h) /\
  pkgJson_version (service h') = pkgJson_version (service h) /\
  context (service h') = context (service h) /\
  invoked h' = invoked h.
Proof.
  intros h'. unfold h', host_after. rewrite registerCommand_run. simpl.
  split; [apply dom_insert_L|]. repeat split.
Qed.

Lemma register_each_chainWebpack (fns : list value) (h : Host) :
  register_each chainWebpack fns h =
    (Returned tt,
     mkHost (set_webpackChainFns (service h)
               (webpackChainFns (service h) ++ fns)) (invoked h)).
Proof.
  revert h. induction fns as [|f rest IH]; intros h.
  - simpl. unfold mret, M_ret. rewrite app_nil_r. now destruct h as [[]].
  - simpl. unfold mbind, M_bind. rewrite chainWebpack_run, IH. simpl.
    unfold set_webpackChainFns. simpl. now rewrite <- app_assoc.
Qed.

Lemma register_each_configureWebpack (fns : list value) (h : Host) :
  register_each configureWebpack fns h =
    (Returned tt,
     mkHost (set_webpackRawConfigFns (service h)
               (webpackRawConfigFns (service h) ++ fns)) (invoked h)).
Proof.
  revert h. induction fns as [|f rest IH]; intros h.
  - simpl. unfold mret, M_ret. rewrite app_nil_r. now destruct h as [[]].
  - simpl. unfold mbind, M_bind. rewrite configureWebpack_run, IH. simpl.
    unfold set_webpackRawConfigFns. simpl. now rewrite <- app_assoc.
Qed.

Lemma register_each_configureDevServer (fns : list value) (h : Host) :
  register_each configureDevServer fns h =
    (Returned tt,
     mkHost (set_devServerConfigFns (service h)
               (devServerConfigFns (service h) ++ fns)) (invoked h)).
Proof.
  revert h. induction fns as [|f rest IH]; intros h.
  - simpl. unfold mret, M_ret. rewrite app_nil_r. now destruct h as [[]].
  - simpl. unfold mbind, M_bind. rewrite configureDevServer_run, IH. simpl.
    unfold set_devServerConfigFns. simpl. now rewrite <- app_assoc.
Qed.

(** X10: functions registered one after the other through chainWebpack,
    configureWebpack or configureDevServer end up behind the earlier entries
    of their list in the order of the calls, and none is dropped: a function
    registered twice is in the list twice, and the list grows by the number
    of calls. *)
Theorem registration_keeps_call_order (fns : list value) (h : Host) :
  let chain := host_after (register_each chainWebpack fns) h in
  let raw := host_after (register_each configureWebpack fns) h in
  let dev := host_after (register_each configureDevServer fns) h in
  (webpackChainFns (service chain) = webpackChainFns (service h) ++ fns /\
   webpackRawConfigFns (service raw) = webpackRawConfigFns (service h) ++ fns /\
   devServerConfigFns (service dev) = devServerConfigFns (service h) ++ fns)
  /\
  (length (webpackChainFns (service chain))
     = (length (webpackChainFns (service h)) + length fns)%nat /\
   length (webpackRawConfigFns (service raw))
     = (length (webpackRawConfigFns (service h)) + length fns)%nat /\
   length (devServerConfigFns (service dev))
     = (length (devServerConfigFns (service h)) + length fns)%nat).
Proof.
  intros chain raw dev. unfold chain, raw, dev, host_after.
  rewrite register_each_chainWebpack, register_each_configureWebpack,
    register_each_configureDevServer.
  simpl. rewrite !length_app. repeat split.
Qed.

(** X11: registrations of different kinds do not interfere: a chainWebpack
    call, a configureWebpack call, a configureDevServer call and a
    registerCommand call leave the same host in whichever order two of them
    are made. *)
Theorem registration_kinds_commute (name : string) (opts f g : value)
    (h : Host) :
  (_ ← chainWebpack f; configureWebpack g) h
    = (_ ← configureWebpack g; chainWebpack f) h /\
  (_ ← chainWebpack f; configureDevServer g) h
    = (_ ← configureDevServer g; chainWebpack f) h /\
  (_ ← configureWebpack f; configureDevServer g) h
    = (_ ← configureDevServer g; configureWebpack f) h /\
  (_ ← registerCommand name opts f; chainWebpack g) h
    = (_ ← chainWebpack g; registerCommand name opts f) h /\
  (_ ← registerCommand name opts f; configureWebpack g) h
    = (_ ← configureWebpack g; registerCommand name opts f) h /\
  (_ ← registerCommand name opts f; configureDevServer g) h
    = (_ ← configureDevServer g; registerCommand name opts f) h.
Proof.
  unfold mbind, M_bind.
  rewrite !chainWebpack_run, !configureWebpack_run, !configureDevServer_run,
    !registerCommand_run.
  repeat split.
Qed.

(** X12: hasPlugin answers true exactly when the id names, for
    matchesPluginId, one of the plugins of the service; it answers false when
    there is no plugin; and no registration changes its answer. *)
Theorem hasPlugin_some_plugin (id name : string) (opts f : value) (h : Host) :
  (result_of (hasPlugin id) h = Returned true
     <-> exists p_id : string,
           In p_id (plugins (service h)) /\ matchesPluginId id p_id = true) /\
  (plugins (service h) = [] -> result_of (hasPlugin id) h = Returned false) /\
  result_of (hasPlugin id) (host_after (registerCommand name opts f) h)
    = result_of (hasPlugin id) h /\
  result_of (hasPlugin id) (host_after (chainWebpack f) h)
    = result_of (hasPlugin id) h /\
  result_of (hasPlugin id) (host_after (configureWebpack f) h)
    = result_of (hasPlugin id) h /\
  result_of (hasPlugin id) (host_after (configureDevServer f) h)
    = result_of (hasPlugin id) h.
Proof.
  split; [|split].
  - unfold result_of, hasPlugin, get_service, mbind, M_bind, mret, M_ret.
    simpl.
    pose proof (existsb_exists (fun p_id => matchesPluginId id p_id)
                  (plugins (service h))) as Hsome.
    cbv beta in Hsome. rewrite <- Hsome.
    split; [intros [= Hb]; exact Hb | intros Hb; now rewrite Hb].
  - intros Hnone. unfold result_of, hasPlugin, get_service, mbind, M_bind.
    simpl. destruct (plugins (service h)); [reflexivity | discriminate].
  - repeat split.
Qed.

(** *** The fingerprint and the rest of the world *)

Lemma variables_bag_named (env1 env2 : Env) (s1 s2 : Service)
    (partialIdentifier : value) (configFiles : configFiles_arg)
    (cli_service : value) (cache_loader : outcome value) :
  same_named_inputs env1 env2 s1 s2 configFiles ->
  variables_bag env1 s1 partialIdentifier configFiles cli_service cache_loader
    = variables_bag env2 s2 partialIdentifier configFiles cli_service
        cache_loader.
Proof.
  intros (Hctx & Hchain & Hraw & _ & _ & Henv & Htest & Hfiles).
  unfold variables_bag. rewrite Htest.
  unfold process_env_value at 1 2. rewrite Henv.
  rewrite (fmtFunc_same_option_value _ _ Hchain).
  rewrite (fmtFunc_same_option_value _ _ Hraw).
  do 6 f_equal. apply map_ext_in. intros file Hin.
  apply file_contribution_same, Hfiles, Hin.
Qed.

(** X13: the id argument of getCacheIdentifier only selects the cache
    directory.  Two calls that differ in the id alone give the same
    cacheIdentifier (or throw the same error), and the cacheDirectory of a
    call is what resolve gives for node_modules/.cache/ followed by the
    id. *)
Theorem getCacheIdentifier_id_selects_directory (env : Env)
    (id1 id2 : string) (partialIdentifier : value)
    (configFiles : configFiles_arg) (h : Host) :
  match result_of (getCacheIdentifier env id1 partialIdentifier configFiles) h,
        result_of (getCacheIdentifier env id2 partialIdentifier configFiles) h
  with
  | Returned r1, Returned r2 =>
      cacheIdentifier r1 = cacheIdentifier r2 /\
      result_of (resolve ("node_modules/.cache/" +:+ id1)) h
        = Returned (cacheDirectory r1) /\
      result_of (resolve ("node_modules/.cache/" +:+ id2)) h
        = Returned (cacheDirectory r2)
  | Thrown e1, Thrown e2 => e1 = e2
  | _, _ => False
  end.
Proof.
  unfold result_of. rewrite !getCacheIdentifier_run.
  destruct (result_of (loadJSON_version env "../package.json") h);
    simpl; repeat split.
Qed.

(** X14: getCacheIdentifier reads nothing but its named inputs.  Two calls
    with the same arguments give the same result as soon as the two
    processes and services agree on the project root, the two user options,
    the two package.json files, NODE_ENV, whether REACT_CLI_TEST is set to a
    non-empty text, and the texts (up to line endings) of the files named in
    configFiles and of the three lockfiles; any other file, environment
    variable, package or field of the service may differ. *)
Theorem getCacheIdentifier_reads_named_inputs (env1 env2 : Env) (id : string)
    (partialIdentifier : value) (configFiles : configFiles_arg)
    (h1 h2 : Host) :
  same_named_inputs env1 env2 (service h1) (service h2) configFiles ->
  result_of (getCacheIdentifier env1 id partialIdentifier configFiles) h1
    = result_of (getCacheIdentifier env2 id partialIdentifier configFiles) h2.
Proof.
  intros Hsame.
  pose proof Hsame as (Hctx & _ & _ & Hcli & Hloader & _ & _ & _).
  unfold result_of. rewrite !getCacheIdentifier_run.
  rewrite (loadJSON_version_same env1 env2 "../package.json" h1 h2 Hcli).
  rewrite (loadJSON_version_same env1 env2 "cache-loader/package.json"
             h1 h2 Hloader).
  destruct (result_of (loadJSON_version env2 "../package.json") h2)
    as [cli|e]; [|reflexivity].
  simpl. rewrite (variables_bag_named env1 env2 _ _ _ _ _ _ Hsame).
  now rewrite Hctx.
Qed.

Lemma getCacheIdentifier_same_service (env : Env) (id : string)
    (partialIdentifier : value) (configFiles : configFiles_arg)
    (h1 h2 : Host) :
  context (service h1) = context (service h2) ->
  userOptions (service h1) = userOptions (service h2) ->
  result_of (getCacheIdentifier env id partialIdentifier configFiles) h1
    = result_of (getCacheIdentifier env id partialIdentifier configFiles) h2.
Proof.
  intros Hctx Hopts. unfold result_of. rewrite !getCacheIdentifier_run.
  rewrite (loadJSON_version_same env env "../package.json" h1 h2 eq_refl).
  rewrite (loadJSON_version_same env env "cache-loader/package.json" h1 h2
             eq_refl).
  unfold variables_bag. rewrite Hctx, Hopts.
  now destruct (result_of (loadJSON_version env "../package.json") h2).
Qed.

Lemma registerCommands_frame (regs : list (string * value * value))
    (h : Host) :
  context (service (host_after (registerCommands regs) h))
    = context (service h) /\
  userOptions (service (host_after (registerCommands regs) h))
    = userOptions (service h).
Proof.
  revert h. induction regs as [|[[n opts] f] rest IH]; intros h;
    [now split|].
  unfold host_after in *. rewrite registerCommands_cons.
  destruct (IH (mkHost (set_commands (service h)
                          (<[n := mkCommand f (js_or opts (VObj []))]>
                             (commands (service h))))
                       (invoked h))) as [H1 H2].
  rewrite H1, H2. split; reflexivity.
Qed.

(** X15: registering does not move the fingerprint.  After registerCommand,
    chainWebpack, configureWebpack or configureDevServer, and after any
    sequence of them, getCacheIdentifier gives what it gave before: the
    functions plugins register are not among what is hashed, only the two
    user options are. *)
Theorem getCacheIdentifier_ignores_registrations (env : Env) (id : string)
    (partialIdentifier : value) (configFiles : configFiles_arg)
    (name : string) (opts f : value) (fns : list value)
    (regs : list (string * value * value)) (h : Host) :
  let fingerprint :=
    result_of (getCacheIdentifier env id partialIdentifier configFiles) in
  fingerprint (host_after (registerCommand name opts f) h) = fingerprint h /\
  fingerprint (host_after (chainWebpack f) h) = fingerprint h /\
  fingerprint (host_after (configureWebpack f) h) = fingerprint h /\
  fingerprint (host_after (configureDevServer f) h) = fingerprint h /\
  fingerprint (host_after (registerCommands regs) h) = fingerprint h /\
  fingerprint (host_after (register_each chainWebpack fns) h)
    = fingerprint h /\
  fingerprint (host_after (register_each configureWebpack fns) h)
    = fingerprint h /\
  fingerprint (host_after (register_each configureDevServer fns) h)
    = fingerprint h.
Proof.
  intros fingerprint. unfold fingerprint.
  repeat split; apply getCacheIdentifier_same_service;
    try apply registerCommands_frame;
    unfold host_after;
    rewrite ?register_each_chainWebpack, ?register_each_configureWebpack,
      ?register_each_configureDevServer, ?registerCommand_run,
      ?chainWebpack_run, ?configureWebpack_run, ?configureDevServer_run;
    reflexivity.
Qed.

(** X16: a file contributes undefined to the bag only when it is missing or
    cannot be read.  A file that exists and is read contributes its text
    with line feeds only, the empty text for an empty file, never the absent
    marker. *)
Theorem configFileEntry_absent_iff (env : Env) (file : string) (h : Host) :
  let absolutePath := path_resolve (context (service h)) file in
  (result_of (configFileEntry env file) h = Returned VUndefined
     <-> fs_existsSync env absolutePath = false \/
         fs_readFileSync env absolutePath = None) /\
  (forall text : string,
     fs_existsSync env absolutePath = true ->
     fs_readFileSync env absolutePath = Some text ->
     result_of (configFileEntry env file) h
       = Returned (VStr (replace_crlf text))).
Proof.
  intros absolutePath. unfold result_of. rewrite configFileEntry_run.
  fold absolutePath. unfold file_text. simpl. split.
  - destruct (fs_existsSync env absolutePath); [|now split; auto].
    destruct (fs_readFileSync env absolutePath) as [text|]; simpl.
    + split; [discriminate | intros [H | H]; discriminate].
    + split; auto.
  - intros text -> ->. reflexivity.
Qed.

(** X17: the test entry of the hashed bag is true exactly when
    REACT_CLI_TEST is set to a non-empty text, whatever the text says, and
    false otherwise; the env entry is NODE_ENV as it is set, or undefined. *)
Theorem cacheVariables_environment_flags (env : Env)
    (partialIdentifier : value) (configFiles : configFiles_arg)
    (h h' : Host) (bag : value) :
  cacheVariables env partialIdentifier configFiles h = (Returned bag, h') ->
  (bag_get "test" bag = VBool true
     <-> exists text : string,
           process_env env "REACT_CLI_TEST" = Some text /\
           text <> EmptyString) /\
  (bag_get "test" bag = VBool true \/ bag_get "test" bag = VBool false) /\
  bag_get "env" bag
    = match process_env env "NODE_ENV" with
      | Some mode => VStr mode
      | None => VUndefined
      end.
Proof.
  rewrite cacheVariables_run.
  destruct (result_of (loadJSON_version env "../package.json") h)
    as [cli|e]; [|discriminate].
  intros [= <- _]. unfold variables_bag, bag_get. simpl.
  unfold process_env_value.
  destruct (process_env env "REACT_CLI_TEST") as [text|]; simpl.
  - destruct text as [|c text]; simpl; repeat split; auto.
    + discriminate.
    + intros (t & [= <-] & Hne). now contradiction Hne.
    + intros _. exists (String c text). split; [reflexivity | discriminate].
  - repeat split; auto.
    + discriminate.
    + intros (t & Ht & _). discriminate.
Qed.

(** X18: when cache-loader's package.json loads, the hashed bag has a
    cache-loader entry between config and configFiles that holds the version
    read from it; a package.json that has no version field still adds the
    entry, holding undefined. *)
Theorem cacheVariables_cache_loader_entry (env : Env)
    (partialIdentifier : value) (configFiles : configFiles_arg)
    (h h' : Host) (bag loader_version : value) :
  cacheVariables env partialIdentifier configFiles h = (Returned bag, h') ->
  result_of (loadJSON_version env "cache-loader/package.json") h
    = Returned loader_version ->
  bag_keys bag = [ "partialIdentifier"; "cli-service"; "env"; "test";
                   "config"; "cache-loader"; "configFiles" ] /\
  bag_get "cache-loader" bag = loader_version /\
  (forall props : list (string * value),
     loadJSON env "cache-loader/package.json" (import_meta_url env)
       = inr (VObj props) ->
     loader_version = obj_get "version" props).
Proof.
  rewrite cacheVariables_run.
  destruct (result_of (loadJSON_version env "../package.json") h)
    as [cli|e]; [|discriminate].
  intros [= <- _] Hloader. rewrite Hloader. repeat split.
  intros props Hprops. unfold result_of, loadJSON_version in Hloader.
  rewrite Hprops in Hloader. simpl in Hloader. congruence.
Qed.

Lemma variables_bag_entries (env : Env) (s : Service)
    (partialIdentifier : value) (configFiles : configFiles_arg)
    (cli_service : value) (cache_loader : outcome value) :
  let bag := variables_bag env s partialIdentifier configFiles cli_service
               cache_loader in
  bag_get "partialIdentifier" bag = partialIdentifier /\
  bag_get "env" bag = process_env_value env "NODE_ENV" /\
  bag_get "test" bag = VBool (truthy (process_env_value env "REACT_CLI_TEST")) /\
  bag_get "configFiles" bag
    = VArr (map (fun file =>
                   file_contribution
                     (file_text env (path_resolve (context s) file)))
              (allConfigFiles configFiles)).
Proof. destruct cache_loader; repeat split. Qed.

(** X19: the hashed bag keeps its inputs apart.  When two calls hash the
    same bag, they were given the same partialIdentifier, ran under the same
    NODE_ENV and the same test flag, saw the same formatted user options,
    and got the same contributions from equally many files; so a change in
    any of these changes the bag. *)
Theorem cacheVariables_same_bag_same_inputs (env1 env2 : Env)
    (pi1 pi2 : value) (cf1 cf2 : configFiles_arg)
    (h1 h2 h1' h2' : Host) (bag : value) :
  cacheVariables env1 pi1 cf1 h1 = (Returned bag, h1') ->
  cacheVariables env2 pi2 cf2 h2 = (Returned bag, h2') ->
  pi1 = pi2 /\
  process_env env1 "NODE_ENV" = process_env env2 "NODE_ENV" /\
  truthy (process_env_value env1 "REACT_CLI_TEST")
    = truthy (process_env_value env2 "REACT_CLI_TEST") /\
  fmtFunc (uo_chainWebpack (userOptions (service h1)))
    = fmtFunc (uo_chainWebpack (userOptions (service h2))) /\
  fmtFunc (uo_configureWebpack (userOptions (service h1)))
    = fmtFunc (uo_configureWebpack (userOptions (service h2))) /\
  map (fun file =>
         file_contribution
           (file_text env1 (path_resolve (context (service h1)) file)))
      (allConfigFiles cf1)
    = map (fun file =>
             file_contribution
               (file_text env2 (path_resolve (context (service h2)) file)))
        (allConfigFiles cf2) /\
  length (allConfigFiles cf1) = length (allConfigFiles cf2).
Proof.
  rewrite !cacheVariables_run.
  destruct (result_of (loadJSON_version env1 "../package.json") h1)
    as [cli1|e1]; [|discriminate].
  destruct (result_of (loadJSON_version env2 "../package.json") h2)
    as [cli2|e2]; [|discriminate].
  intros Hrun1 Hrun2.
  assert (Hbag :
    variables_bag env1 (service h1) pi1 cf1 cli1
      (result_of (loadJSON_version env1 "cache-loader/package.json") h1)
    = variables_bag env2 (service h2) pi2 cf2 cli2
        (result_of (loadJSON_version env2 "cache-loader/package.json") h2))
    by congruence.
  clear Hrun1 Hrun2.
  pose proof (f_equal (bag_get "partialIdentifier") Hbag) as Hpi.
  pose proof (f_equal (bag_get "env") Hbag) as Henv.
  pose proof (f_equal (bag_get "test") Hbag) as Htest.
  pose proof (f_equal (bag_get "config") Hbag) as Hconfig.
  pose proof (f_equal (bag_get "configFiles") Hbag) as Hfiles.
  rewrite !variables_bag_config in Hconfig.
  destruct (variables_bag_entries env1 (service h1) pi1 cf1 cli1
              (result_of (loadJSON_version env1 "cache-loader/package.json")
                 h1)) as (E1 & E2 & E3 & E4).
  destruct (variables_bag_entries env2 (service h2) pi2 cf2 cli2
              (result_of (loadJSON_version env2 "cache-loader/package.json")
                 h2)) as (F1 & F2 & F3 & F4).
  rewrite E1, F1 in Hpi. rewrite E2, F2 in Henv. rewrite E3, F3 in Htest.
  rewrite E4, F4 in Hfiles.
  injection Hconfig as Hchain Hraw. injection Htest as Htest.
  injection Hfiles as Hfiles.
  repeat split; try congruence.
  - unfold process_env_value in Henv.
    destruct (process_env env1 "NODE_ENV"), (process_env env2 "NODE_ENV");
      congruence.
  - apply (f_equal (@length value)) in Hfiles.
    now rewrite !length_map in Hfiles.
Qed.

(** X20: a user option that is not a function is hashed as it is.  When
    chainWebpack or configureWebpack is set to an object (or any other value
    that is not a function) in two services, the two calls hash the same bag
    only if the option has the very same value in both: nothing inside such a
    value is normalized, the line endings of a function nested in it
    included. *)
Theorem cacheVariables_plain_option_as_is (env1 env2 : Env)
    (pi1 pi2 : value) (cf1 cf2 : configFiles_arg)
    (h1 h2 h1' h2' : Host) (bag : value) :
  cacheVariables env1 pi1 cf1 h1 = (Returned bag, h1') ->
  cacheVariables env2 pi2 cf2 h2 = (Returned bag, h2') ->
  (is_function (uo_chainWebpack (userOptions (service h1))) = false ->
   is_function (uo_chainWebpack (userOptions (service h2))) = false ->
   uo_chainWebpack (userOptions (service h1))
     = uo_chainWebpack (userOptions (service h2))) /\
  (is_function (uo_configureWebpack (userOptions (service h1))) = false ->
   is_function (uo_configureWebpack (userOptions (service h2))) = false ->
   uo_configureWebpack (userOptions (service h1))
     = uo_configureWebpack (userOptions (service h2))).
Proof.
  rewrite !cacheVariables_run.
  destruct (result_of (loadJSON_version env1 "../package.json") h1)
    as [cli1|e1]; [|discriminate].
  destruct (result_of (loadJSON_version env2 "../package.json") h2)
    as [cli2|e2]; [|discriminate].
  intros Hrun1 Hrun2.
  assert (Hbag :
    variables_bag env1 (service h1) pi1 cf1 cli1
      (result_of (loadJSON_version env1 "cache-loader/package.json") h1)
    = variables_bag env2 (service h2) pi2 cf2 cli2
        (result_of (loadJSON_version env2 "cache-loader/package.json") h2))
    by congruence.
  clear Hrun1 Hrun2.
  apply (f_equal (bag_get "config")) in Hbag.
  rewrite !variables_bag_config in Hbag. injection Hbag as Hchain Hraw.
  split; intros Hf1 Hf2.
  - destruct (uo_chainWebpack (userOptions (service h1))),
      (uo_chainWebpack (userOptions (service h2)));
      try discriminate; exact Hchain.
  - destruct (uo_configureWebpack (userOptions (service h1))),
      (uo_configureWebpack (userOptions (service h2)));
      try discriminate; exact Hraw.
Qed.

End PluginApi.

(** ** Concrete runs *)

(** The fingerprint of the sample project: cache-loader is absent from the
    bag, the unreadable babel.config.js and the two missing lockfiles
    contribute undefined, and yarn.lock and the chainWebpack source enter with
    line feeds only. *)
Example getCacheIdentifier_sample :
  getCacheIdentifier sample_hash sample_resolve (sample_env text_crlf)
    "babel-loader" (VStr "7") (CF_string "babel.config.js")
    (sample_host (VFun text_crlf))
  = (Returned
       (mkCacheResult "/proj/node_modules/.cache/babel-loader"
          (sample_hash
             (VObj [ ("partialIdentifier", VStr "7");
                     ("cli-service", VStr "1.2.3");
                     ("env", VStr "production");
                     ("test", VBool false);
                     ("config", VArr [VStr text_lf; VUndefined]);
                     ("configFiles",
                      VArr [VUndefined; VUndefined; VStr text_lf;
                            VUndefined]) ]))),
     sample_host (VFun text_crlf)).
Proof. vm_compute. reflexivity. Qed.

Example assertVersion_sample :
  result_of (assertVersion sample_satisfies (VNum (Finite (1 # 1))))
    (sample_host VUndefined) = Returned tt /\
  result_of (assertVersion sample_satisfies (VStr "^2.0.0-0"))
    (sample_host VUndefined)
    = Thrown (Error (incompatible_version_message "^2.0.0-0" "1.2.3")) /\
  result_of (assertVersion sample_satisfies (VNum (Finite (3 # 2))))
    (sample_host VUndefined) = Thrown (Error invalid_range_message).
Proof. vm_compute. repeat split. Qed.




(** When the source of the chainWebpack function changes in its line
    endings alone, from CRLF to LF, the hashed variables bag stays the
    same. *)
Example changed_line_endings_keep_bag :
  VFun text_crlf <> VFun text_lf /\
  exists bag : value,
    result_of
      (cacheVariables sample_resolve (sample_env text_lf) VNull CF_default)
      (sample_host (VFun text_crlf)) = Returned bag /\
    result_of
      (cacheVariables sample_resolve (sample_env text_lf) VNull CF_default)
      (sample_host (VFun text_lf)) = Returned bag.
Proof.
  split; [discriminate|]. eexists. split; vm_compute; reflexivity.
Qed.

(** C3, at the number 1 written as 2/2. *)
Lemma assertVersion_integer_as_caret_range_witness :
  assertVersion sample_satisfies (VNum (Finite (2 # 2)))
    (sample_host VUndefined)
  = assertVersion sample_satisfies
      (VStr ("^" +:+ Number_toString (Finite (2 # 2)) +:+ ".0.0-0"))
      (sample_host VUndefined) /\
  (Z.abs 1 < 2 ^ 53 ->
   assertVersion sample_satisfies (VNum (Finite (2 # 2)))
     (sample_host VUndefined)
   = assertVersion sample_satisfies (VStr ("^" +:+ pretty 1%Z +:+ ".0.0-0"))
       (sample_host VUndefined)).
Proof.
  apply (assertVersion_integer_as_caret_range sample_satisfies 1 (2 # 2)).
  reflexivity.
Defined.

(** C3, the claim as written fails at the integer 10^21: called with the
    number, assertVersion asks for the range ^1e+21.0.0-0, and called with
    the string ^1000000000000000000000.0.0-0 it asks for that one; under a
    comparator that accepts neither, the two calls throw errors with
    different messages. *)
Lemma assertVersion_large_integer_differs :
  result_of
    (assertVersion sample_satisfies (VNum (Finite (10 ^ 21 # 1))))
    (sample_host VUndefined)
  = Thrown (Error (incompatible_version_message "^1e+21.0.0-0" "1.2.3")) /\
  result_of
    (assertVersion sample_satisfies
       (VStr ("^" +:+ pretty (10 ^ 21)%Z +:+ ".0.0-0")))
    (sample_host VUndefined)
  = Thrown (Error (incompatible_version_message
                     "^1000000000000000000000.0.0-0" "1.2.3")) /\
  incompatible_version_message "^1e+21.0.0-0" "1.2.3"
    <> incompatible_version_message "^1000000000000000000000.0.0-0" "1.2.3".
Proof.
  split; [vm_compute; reflexivity|]. split; [vm_compute; reflexivity|].
  vm_compute. discriminate.
Qed.

(** C5, the claim as written fails: registering a name a second time with
    null for the options leaves the table with an empty options object for
    that name, not with the null that was passed. *)
Lemma registerCommand_last_options_not_stored :
  let twice := (_ ← registerCommand "build" (VObj [("--mode", VStr "m")])
                      (VFun "f1");
                registerCommand "build" VNull (VFun "f2")) in
  commands (service (host_after twice (sample_host VUndefined))) !! "build"
    = Some (mkCommand (VFun "f2") (VObj [])) /\
  commands (service (host_after twice (sample_host VUndefined))) !! "build"
    <> Some (mkCommand (VFun "f2") VNull).
Proof.
  intros twice. unfold twice, host_after, mbind, M_bind.
  rewrite !registerCommand_run. simpl. rewrite lookup_insert_eq.
  split; [reflexivity | discriminate].
Qed.

(** C6, at the number 3/2 and at null. *)
Lemma assertVersion_invalid_range_witness :
  assertVersion sample_satisfies (VNum (Finite (3 # 2)))
    (sample_host VUndefined)
    = (Thrown (Error invalid_range_message), sample_host VUndefined) /\
  assertVersion sample_satisfies VNull (sample_host VUndefined)
    = (Thrown (Error invalid_range_message), sample_host VUndefined).
Proof.
  split.
  - apply (assertVersion_invalid_range sample_satisfies
             (VNum (Finite (3 # 2))) (sample_host VUndefined)).
    reflexivity.
  - apply (assertVersion_invalid_range sample_satisfies VNull
             (sample_host VUndefined)).
    reflexivity.
Defined.

(** C9, at major version 2 asked of the host of version 1.2.3. *)
Lemma assertVersion_incompatible_message_witness :
  exists r : string,
    required_range (VNum (Finite (2 # 1))) = Some r /\
    Error (incompatible_version_message "^2.0.0-0" "1.2.3")
      = Error (incompatible_version_message r "1.2.3") /\
    occurs_in r (incompatible_version_message r "1.2.3") /\
    occurs_in "1.2.3" (incompatible_version_message r "1.2.3").
Proof.
  apply (assertVersion_incompatible_message sample_satisfies
           (VNum (Finite (2 # 1))) (sample_host VUndefined)
           (sample_host VUndefined)
           (Error (incompatible_version_message "^2.0.0-0" "1.2.3"))).
  - vm_compute. reflexivity.
  - discriminate.
Defined.

(** C10, at the sample host, whose command table is empty. *)
Lemma registerCommand_options_never_null_witness :
  commands
    (service
       (host_after (registerCommand "build" VNull (VFun "f"))
          (sample_host VUndefined)))
    !! "build" = Some (mkCommand (VFun "f") (VObj [])) /\
  commands
    (service
       (host_after (registerCommand "build" VUndefined (VFun "f"))
          (sample_host VUndefined)))
    !! "build" = Some (mkCommand (VFun "f") (VObj [])) /\
  options_never_null
    (service
       (host_after (registerCommand "build" (VBool false) (VFun "f"))
          (sample_host VUndefined))) /\
  options_never_null
    (service
       (host_after
          (registerCommands [ ("build", VNull, VFun "f");
                              ("serve", VNum NaN, VFun "g");
                              ("build", VObj [], VFun "h") ])
          (sample_host VUndefined))).
Proof.
  apply (registerCommand_options_never_null "build" (VBool false) (VFun "f")
           [ ("build", VNull, VFun "f"); ("serve", VNum NaN, VFun "g");
             ("build", VObj [], VFun "h") ]
           (sample_host VUndefined)).
  apply map_Forall_empty.
Defined.

(** ** Concrete runs of the further properties *)

(** X5, at the sample host and a host of the same version that holds a
    command more. *)
Lemma assertVersion_reads_version_only_witness :
  result_of (assertVersion sample_satisfies (VNum (Finite (1 # 1))))
    (sample_host VUndefined)
  = result_of (assertVersion sample_satisfies (VNum (Finite (1 # 1))))
      (host_after (registerCommand "build" VNull (VFun "f"))
         (sample_host (VFun "g"))).
Proof.
  apply (assertVersion_reads_version_only sample_satisfies
           (VNum (Finite (1 # 1))) (sample_host VUndefined)
           (host_after (registerCommand "build" VNull (VFun "f"))
              (sample_host (VFun "g")))).
  reflexivity.
Defined.

Lemma busy_same_named_inputs :
  same_named_inputs sample_resolve (sample_env text_crlf) busy_env
    (service (sample_host (VFun text_crlf))) (service busy_host)
    (CF_string "babel.config.js").
Proof.
  repeat split.
  - apply same_option_value_fun. reflexivity.
  - apply same_option_value_refl.
  - intros file Hin. simpl in Hin.
    destruct Hin as [<- | [<- | [<- | [<- | []]]]]; reflexivity.
Defined.

(** X14, at the sample project and at the same project seen from a process
    and a host that differ in what the call does not read. *)
Lemma getCacheIdentifier_reads_named_inputs_witness :
  result_of
    (getCacheIdentifier sample_hash sample_resolve (sample_env text_crlf)
       "babel-loader" (VStr "7") (CF_string "babel.config.js"))
    (sample_host (VFun text_crlf))
  = result_of
      (getCacheIdentifier sample_hash sample_resolve busy_env
         "babel-loader" (VStr "7") (CF_string "babel.config.js"))
      busy_host.
Proof.
  apply (getCacheIdentifier_reads_named_inputs sample_hash sample_resolve
           (sample_env text_crlf) busy_env "babel-loader" (VStr "7")
           (CF_string "babel.config.js") (sample_host (VFun text_crlf))
           busy_host).
  exact busy_same_named_inputs.
Defined.

(** X17, with REACT_CLI_TEST set to the text false and NODE_ENV not set. *)
Lemma cacheVariables_environment_flags_witness :
  exists bag : value,
    cacheVariables sample_resolve loader_env VNull CF_default
      (sample_host VUndefined) = (Returned bag, sample_host VUndefined) /\
    bag_get "test" bag = VBool true /\
    bag_get "env" bag = VUndefined.
Proof.
  eexists. split; [vm_compute; reflexivity|].
  destruct (cacheVariables_environment_flags sample_resolve loader_env VNull
              CF_default (sample_host VUndefined) (sample_host VUndefined) _
              eq_refl) as (Htest & _ & Henv).
  split; [|exact Henv].
  apply Htest. exists "false". split; [reflexivity | discriminate].
Defined.

(** X18, with a cache-loader whose package.json has no version field. *)
Lemma cacheVariables_cache_loader_entry_witness :
  exists bag : value,
    cacheVariables sample_resolve loader_env VNull CF_default
      (sample_host VUndefined) = (Returned bag, sample_host VUndefined) /\
    bag_keys bag = [ "partialIdentifier"; "cli-service"; "env"; "test";
                     "config"; "cache-loader"; "configFiles" ] /\
    bag_get "cache-loader" bag = VUndefined.
Proof.
  eexists. split; [vm_compute; reflexivity|].
  destruct (cacheVariables_cache_loader_entry sample_resolve loader_env VNull
              CF_default (sample_host VUndefined) (sample_host VUndefined) _
              VUndefined eq_refl eq_refl) as (Hkeys & Hget & _).
  split; [exact Hkeys | exact Hget].
Defined.

(** X19, at the sample project checked out with CRLF and with LF line
    endings, which hash the same bag. *)
Lemma cacheVariables_same_bag_same_inputs_witness :
  VStr "7" = VStr "7" /\
  process_env (sample_env text_crlf) "NODE_ENV"
    = process_env (sample_env text_lf) "NODE_ENV" /\
  fmtFunc (VFun text_crlf) = fmtFunc (VFun text_lf).
Proof.
  destruct (cacheVariables_same_bag_same_inputs sample_resolve
              (sample_env text_crlf) (sample_env text_lf)
              (VStr "7") (VStr "7")
              (CF_string "babel.config.js") (CF_string "babel.config.js")
              (sample_host (VFun text_crlf)) (sample_host (VFun text_lf))
              (sample_host (VFun text_crlf)) (sample_host (VFun text_lf))
              _ eq_refl eq_refl) as (Hpi & Henv & _ & Hchain & _).
  split; [exact Hpi|]. split; [exact Henv | exact Hchain].
Defined.

(** X20, at a service whose configureWebpack option is an object that holds
    a function with CRLF line endings, hashed twice: the option enters the
    bag with its carriage returns. *)
Lemma cacheVariables_plain_option_as_is_witness :
  exists bag : value,
    cacheVariables sample_resolve (sample_env text_lf) VNull CF_default
      object_host = (Returned bag, object_host) /\
    bag_get "config" bag
      = VArr [VUndefined; VObj [("plugins", VFun text_crlf)]] /\
    uo_configureWebpack (userOptions (service object_host))
      = uo_configureWebpack (userOptions (service object_host)).
Proof.
  eexists. split; [vm_compute; reflexivity|]. split; [reflexivity|].
  refine (proj2 (cacheVariables_plain_option_as_is sample_resolve
                   (sample_env text_lf) (sample_env text_lf) VNull VNull
                   CF_default CF_default object_host object_host
                   object_host object_host _ _ _)
            eq_refl eq_refl); vm_compute; reflexivity.
Defined.
